(** * doc-processor: markdown to Word conversion

    A shallow embedding of [implementations/doc-processor/src/index.ts]
    (class [DocProcessorServer]) and the properties of it that the
    specification states.

    Layout:
    - [JS]: the JavaScript string primitives the program uses, over UTF-16
      code units;
    - the [docx] document model the program builds ([TextRun], [Paragraph],
      [Table]), recorded as the option objects handed to the constructors;
    - the token tree of [marked] as far as the program reads it;
    - the program: [STYLES], [getHeadingStyle], [parseInlineContent],
      [preprocessMarkdown], [createListItemParagraph], [processNestedList],
      [createWordDoc], [saveWordDocument] and the two tool handlers;
    - the theorems. *)

From Stdlib Require Import List NArith ZArith QArith Bool Ascii String Lia.
From Stdlib Require Import DecimalString.
Import ListNotations.

Local Open Scope N_scope.

(* ===================================================================== *)
(** * JavaScript strings *)
(* ===================================================================== *)

Module JS.

(** A JavaScript string is a sequence of UTF-16 code units. *)
Definition jsstring := list N.

(** ** Literals

    [js s] is the JavaScript string written [s] in the source: the bytes of
    the Rocq literal are decoded as UTF-8, a code point above U+FFFF gives a
    surrogate pair, and the escapes [\n], [\r], [\t] and [\\] are read as
    JavaScript reads them. *)

Fixpoint utf16_of_utf8 (bs : list N) : jsstring :=
  match bs with
  | [] => []
  | b0 :: r0 =>
    if b0 <? 128 then b0 :: utf16_of_utf8 r0
    else if b0 <? 224 then
      match r0 with
      | b1 :: r1 => ((b0 - 192) * 64 + (b1 - 128)) :: utf16_of_utf8 r1
      | [] => []
      end
    else if b0 <? 240 then
      match r0 with
      | b1 :: b2 :: r2 =>
        ((b0 - 224) * 4096 + (b1 - 128) * 64 + (b2 - 128)) :: utf16_of_utf8 r2
      | _ => []
      end
    else
      match r0 with
      | b1 :: b2 :: b3 :: r3 =>
        let cp := (b0 - 240) * 262144 + (b1 - 128) * 4096
                  + (b2 - 128) * 64 + (b3 - 128) in
        (55296 + (cp - 65536) / 1024) :: (56320 + (cp - 65536) mod 1024)
          :: utf16_of_utf8 r3
      | _ => []
      end
  end.

Fixpoint unescape (s : jsstring) : jsstring :=
  match s with
  | [] => []
  | c :: r =>
    if c =? 92 then
      match r with
      | e :: r' =>
        (if e =? 110 then 10 else if e =? 114 then 13
         else if e =? 116 then 9 else e) :: unescape r'
      | [] => [c]
      end
    else c :: unescape r
  end.

Definition js (s : string) : jsstring :=
  unescape (utf16_of_utf8 (map N_of_ascii (list_ascii_of_string s))).

(** ** Character classes *)

(** ECMAScript LineTerminator: LF, CR, LS, PS.  The regular-expression dot
    (without the [s] flag) matches every code unit but these. *)
Definition isLineTerminator (c : N) : bool :=
  (c =? 10) || (c =? 13) || (c =? 8232) || (c =? 8233).

(** ECMAScript WhiteSpace and LineTerminator: what [String.prototype.trim]
    strips and what [\s] matches. *)
Definition isWhiteSpace (c : N) : bool :=
  (c =? 9) || (c =? 10) || (c =? 11) || (c =? 12) || (c =? 13) || (c =? 32)
  || (c =? 160) || (c =? 5760) || ((8192 <=? c) && (c <=? 8202))
  || (c =? 8232) || (c =? 8233) || (c =? 8239) || (c =? 8287)
  || (c =? 12288) || (c =? 65279).

(** [\d] without the [u] and [v] flags: the ten ASCII digits. *)
Definition isDigit (c : N) : bool := (48 <=? c) && (c <=? 57).

(** ** String operations *)

Fixpoint eqb (a b : jsstring) : bool :=
  match a, b with
  | [], [] => true
  | x :: a', y :: b' => (x =? y) && eqb a' b'
  | _, _ => false
  end.

(** A string is truthy when it is not empty. *)
Definition truthy (s : jsstring) : bool :=
  match s with [] => false | _ :: _ => true end.

Fixpoint dropWhile (p : N -> bool) (s : jsstring) : jsstring :=
  match s with
  | [] => []
  | c :: r => if p c then dropWhile p r else s
  end.

Definition trimStart (s : jsstring) : jsstring := dropWhile isWhiteSpace s.
Definition trimEnd (s : jsstring) : jsstring :=
  rev (dropWhile isWhiteSpace (rev s)).

(** [s.trim()] *)
Definition trim (s : jsstring) : jsstring := trimEnd (trimStart s).

(** [s.split(sep)] for a separator of one code unit: never the empty list,
    [''.split('\n')] is [['']]. *)
Fixpoint split (sep : N) (s : jsstring) : list jsstring :=
  match s with
  | [] => [[]]
  | c :: r =>
    if c =? sep then [] :: split sep r
    else match split sep r with
         | h :: t => (c :: h) :: t
         | [] => [[c]]
         end
  end.

(** [l.join(sep)] for a separator of one code unit. *)
Fixpoint join (sep : N) (l : list jsstring) : jsstring :=
  match l with
  | [] => []
  | [x] => x
  | x :: r => x ++ sep :: join sep r
  end.

(** [s.startsWith(p)] *)
Fixpoint startsWith (s p : jsstring) {struct p} : bool :=
  match p, s with
  | [], _ => true
  | y :: p', x :: s' => (x =? y) && startsWith s' p'
  | _ :: _, [] => false
  end.

(** [s.substring(n)] for [0 <= n] *)
Definition substring (s : jsstring) (n : nat) : jsstring := skipn n s.

(** [s.slice(i, j)] for [0 <= i <= j] *)
Definition slice (s : jsstring) (i j : nat) : jsstring :=
  firstn (j - i) (skipn i s).

(** [s[i]]: [None] stands for [undefined]. *)
Definition charAt (s : jsstring) (i : nat) : option N := nth_error s i.

(** [s.repeat(n)] *)
Fixpoint repeat (s : jsstring) (n : nat) : jsstring :=
  match n with
  | O => []
  | S n' => s ++ repeat s n'
  end.

(** ** Regular expressions

    The two patterns of the program are anchored at both ends ([^] and
    [$], no [m] flag) and are sequences of literal characters and of
    greedy repetitions [c+] of a character class, some of them capturing
    groups.  A pattern is the list of its items; matching backtracks as the
    matcher of JavaScript does: a repetition first takes as many characters
    as it can and gives them back one at a time while what follows does not
    match. *)
Inductive RegExpItem : Type :=
| Lit (c : N)
| Plus (class : N -> bool)
| Group (class : N -> bool).

(** [class+] at [s], greedy: [taken] is what the repetition holds so far,
    [k] matches what follows the repetition. *)
Fixpoint matchPlus {R : Type} (class : N -> bool) (s taken : jsstring)
  (k : jsstring -> jsstring -> option R) : option R :=
  match s with
  | c :: s' =>
    if class c then
      match matchPlus class s' (taken ++ [c]) k with
      | Some r => Some r
      | None => k (taken ++ [c]) s'
      end
    else None
  | [] => None
  end.

(** The groups of the match of [^items$] on [s], or [None] for [null]. *)
Fixpoint matchItems (items : list RegExpItem) (s : jsstring)
  (groups : list jsstring) : option (list jsstring) :=
  match items with
  | [] => match s with [] => Some groups | _ :: _ => None end
  | Lit c :: rest =>
    match s with
    | x :: s' => if x =? c then matchItems rest s' groups else None
    | [] => None
    end
  | Plus class :: rest =>
    matchPlus class s [] (fun _ s' => matchItems rest s' groups)
  | Group class :: rest =>
    matchPlus class s []
      (fun taken s' => matchItems rest s' (groups ++ [taken]))
  end.

(** The dot of a pattern: every code unit but a line terminator. *)
Definition isDot (c : N) : bool := negb (isLineTerminator c).

(** [m[1]] of a match [m] *)
Definition group1 (groups : list jsstring) : jsstring := nth 0 groups [].

(** ** Numbers

    The numbers that reach a string here are list indices: non-negative
    integers, far below 10^21, which JavaScript prints in plain decimal. *)
Definition Number_toString (n : N) : jsstring :=
  map N_of_ascii (list_ascii_of_string (NilZero.string_of_uint (N.to_uint n))).

(** [parseInt(s)] on a string of decimal digits.  (JavaScript rounds to a
    double above 2^53; the program only tests the result against [null].) *)
Definition parseInt (digits : jsstring) : N :=
  fold_left (fun acc c => 10 * acc + (c - 48)) digits 0.

End JS.

Import JS.

(* ===================================================================== *)
(** * The document model of [docx] *)
(* ===================================================================== *)

(** The program builds its document by calling the constructors of the
    [docx] package with option objects.  A constructed object is recorded as
    the options it was built from; a property the source leaves out is
    [None]. *)

(** A length: a number literal, or a call of [convertInchesToTwip], which is
    recorded with its argument and not evaluated: the function belongs to
    [docx].  The argument is the decimal fraction of an inch the source
    writes, as an exact rational (the source computes [0.3 * (level + 1)]
    in floating point). *)
Inductive Length : Type :=
| Num (n : Z)
| convertInchesToTwip (inches : Q).

Inductive HeadingLevel : Type :=
| HEADING_1 | HEADING_2 | HEADING_3 | HEADING_4 | HEADING_5 | HEADING_6.

Inductive LineRuleType : Type := EXACT.

Inductive AlignmentType : Type := BOTH | LEFT | CENTER.

Inductive BorderStyle : Type := SINGLE.

Inductive WidthType : Type := PERCENTAGE.

Module TextRun.
Record t : Type := mk {
  text : option jsstring;
  font : option jsstring;
  size : option Z;
  color : option jsstring;
  bold : option bool;
  italics : option bool;
  strike : option bool;
  break : option Z
}.
End TextRun.

Module Spacing.
Record t : Type := mk {
  before : option Length;
  after : option Length;
  line : option Z;
  lineRule : option LineRuleType
}.
End Spacing.

Module Indent.
Record t : Type := mk {
  left : option Length;
  right : option Length;
  firstLine : option Length;
  hanging : option Length
}.
End Indent.

Module Border.
Record t : Type := mk {
  style : BorderStyle;
  size : Z;
  color : jsstring
}.
End Border.

Module Paragraph.
Record t : Type := mk {
  children : list TextRun.t;
  heading : option HeadingLevel;
  spacing : option Spacing.t;
  alignment : option AlignmentType;
  indent : option Indent.t;
  border_left : option Border.t
}.
End Paragraph.

Module TableCell.
Record t : Type := mk {
  children : list Paragraph.t;
  verticalAlign : option jsstring
}.
End TableCell.

Module TableBorders.
Record t : Type := mk {
  top : Border.t;
  bottom : Border.t;
  left : Border.t;
  right : Border.t;
  insideHorizontal : Border.t;
  insideVertical : Border.t
}.
End TableBorders.

Module Table.
Record t : Type := mk {
  width_size : Z;
  width_type : WidthType;
  borders : TableBorders.t;
  rows : list (list TableCell.t)
}.
End Table.

(** An element of [children : (Paragraph | Table)[]]. *)
Inductive Block : Type :=
| BParagraph (p : Paragraph.t)
| BTable (t : Table.t).

(** [new Document({ sections: [{ properties: {}, children }] })] *)
Module Document.
Record t : Type := mk {
  sections : list (list Block)
}.
End Document.

(* ===================================================================== *)
(** * The tokens of [marked] *)
(* ===================================================================== *)

(** [MarkedToken], with the properties the program reads.  [Other] stands
    for every token type the [switch] of [createWordDoc] has no case for
    ([space], [html], ...).  A list item's [text] is read through
    [item.text || ''], so a missing text is the empty string; [start] is
    the number [marked] gives an ordered list. *)
#[local] Set Warnings "-register-all".

Inductive MarkedToken : Type :=
| Heading (depth : Z) (text : jsstring)
| ParagraphTok (text : jsstring)
| Code (text : jsstring)
| TableTok (header : list jsstring) (rows : list (list jsstring))
| ListTok (l : ListToken)
| Blockquote (tokens : option (list MarkedToken))
| Hr
| Other (type : jsstring)
with ListToken : Type :=
| mkList (ordered : option bool) (start : option N) (items : list ListItem)
with ListItem : Type :=
| mkItem (text : jsstring) (tokens : option (list MarkedToken)).

(* ===================================================================== *)
(** * The program *)
(* ===================================================================== *)

(** ** [STYLES] *)

(** An entry of [DocStyles]; [bold] is [Some] exactly for the entry that has
    the property ([h3]), which is what [style.hasOwnProperty('bold')]
    tests. *)
Module Style.
Record t : Type := mk {
  font : jsstring;
  size : Z;
  bold : option bool
}.
End Style.

Module STYLES.
Definition normal : Style.t :=
  Style.mk (js "仿宋_GB2312") 32%Z None.
Definition h1 : Style.t :=
  Style.mk (js "小标宋体") 36%Z None.
Definition h2 : Style.t :=
  Style.mk (js "楷体_GB2312") 32%Z None.
Definition h3 : Style.t :=
  Style.mk (js "仿宋_GB2312") 32%Z (Some true).
End STYLES.

(** ** [getHeadingStyle] *)

Definition getHeadingStyle (level : Z) : Style.t :=
  if (level =? 1)%Z then STYLES.h1
  else if (level =? 2)%Z then STYLES.h2
  else if (level =? 3)%Z then STYLES.h3
  else STYLES.normal.

(** ** [parseInlineContent] *)

(** The local variables of [parseInlineContent]. *)
Record InlineState : Type := mkInline {
  runs : list TextRun.t;
  currentText : jsstring;
  isStrong : bool;
  isEm : bool;
  isDel : bool;
  isCode : bool
}.

Definition addCurrentText (st : InlineState) : InlineState :=
  if truthy (currentText st) then
    mkInline
      (runs st ++
        [TextRun.mk (Some (currentText st))
           (Some (if isCode st then js "Courier New"
                  else Style.font STYLES.normal))
           (Some (if isCode st then 24%Z else Style.size STYLES.normal))
           (Some (js "000000"))
           (Some (isStrong st)) (Some (isEm st)) (Some (isDel st)) None])
      [] (isStrong st) (isEm st) (isDel st) (isCode st)
  else st.

Definition isChar (o : option N) (c : N) : bool :=
  match o with
  | Some x => x =? c
  | None => false
  end.

(** The body of the [while] loop: the value of [i] and of the local
    variables after one round that starts at [i < content.length]. *)
Definition round (content : jsstring) (i : nat) (st : InlineState)
  : nat * InlineState :=
  if isChar (charAt content i) 96 then
    let st := addCurrentText st in
    ((i + 1)%nat,
     mkInline (runs st) (currentText st)
       (isStrong st) (isEm st) (isDel st) (negb (isCode st)))
  else if JS.eqb (slice content i (i + 3)) (js "***") then
    let st := addCurrentText st in
    ((i + 3)%nat,
     mkInline (runs st) (currentText st)
       (negb (isStrong st)) (negb (isEm st)) (isDel st) (isCode st))
  else if JS.eqb (slice content i (i + 2)) (js "**") then
    let st := addCurrentText st in
    ((i + 2)%nat,
     mkInline (runs st) (currentText st)
       (negb (isStrong st)) (isEm st) (isDel st) (isCode st))
  else if JS.eqb (slice content i (i + 2)) (js "~~") then
    let st := addCurrentText st in
    ((i + 2)%nat,
     mkInline (runs st) (currentText st)
       (isStrong st) (isEm st) (negb (isDel st)) (isCode st))
  else if isChar (charAt content i) 42
          && negb (isChar (charAt content (i + 1)) 42) then
    let st := addCurrentText st in
    ((i + 1)%nat,
     mkInline (runs st) (currentText st)
       (isStrong st) (negb (isEm st)) (isDel st) (isCode st))
  else
    ((i + 1)%nat,
     mkInline (runs st)
       (currentText st ++
          match charAt content i with Some c => [c] | None => [] end)
       (isStrong st) (isEm st) (isDel st) (isCode st)).

(** The [while (i < content.length)] loop.  Every round advances [i], so
    [length content] rounds are enough ([scan_fuel] below); [fuel] bounds
    the rounds. *)
Fixpoint scan (fuel : nat) (content : jsstring) (i : nat) (st : InlineState)
  : InlineState :=
  match fuel with
  | O => st
  | S fuel' =>
    if (i <? List.length content)%nat then
      let (i', st') := round content i st in
      scan fuel' content i' st'
    else st
  end.

Definition parseInlineContent (content : jsstring) : list TextRun.t :=
  runs (addCurrentText
          (scan (List.length content) content 0
             (mkInline [] [] false false false false))).

(** ** [preprocessMarkdown] *)

(** [/^(\d+)\.\s+\*\*(.+)\*\*$/] *)
Definition mainListPattern : list RegExpItem :=
  [Group isDigit; Lit 46; Plus isWhiteSpace; Lit 42; Lit 42;
   Group isDot; Lit 42; Lit 42].

(** [/^-\s+(.+)$/] *)
Definition nestedDashPattern : list RegExpItem :=
  [Lit 45; Plus isWhiteSpace; Group isDot].

(** [trimmedLine.match(...)]: the groups of the match, [None] for [null]. *)
Definition mainListMatch (s : jsstring) : option (list jsstring) :=
  matchItems mainListPattern s [].

Definition nestedDashMatch (s : jsstring) : option (list jsstring) :=
  matchItems nestedDashPattern s [].

(** The local variables of [preprocessMarkdown]. *)
Record PreState : Type := mkPre {
  resultLines : list jsstring;
  currentMainListItem : option N;
  processingNestedList : bool
}.

(** One round of the [for] loop over the lines. *)
Definition preprocessLine (st : PreState) (line : jsstring) : PreState :=
  let trimmedLine := trim line in
  match mainListMatch trimmedLine with
  | Some groups =>
    mkPre (resultLines st ++ [line]) (Some (parseInt (group1 groups))) false
  | None =>
    match nestedDashMatch trimmedLine, currentMainListItem st with
    | Some groups, Some _ =>
      mkPre (resultLines st ++ [js "   - " ++ group1 groups])
        (currentMainListItem st) true
    | _, _ =>
      mkPre (resultLines st ++ [line]) (currentMainListItem st)
        (if truthy trimmedLine then processingNestedList st else false)
    end
  end.

Definition preprocessMarkdown (markdown : jsstring) : jsstring :=
  let lines := split 10 markdown in
  join 10 (resultLines (fold_left preprocessLine lines (mkPre [] None false))).

(** ** [createTableFromMarkdown] *)

Definition blackBorder : Border.t := Border.mk SINGLE 1%Z (js "000000").

Definition createTableFromMarkdown (header : list jsstring)
  (rows : list (list jsstring)) : Table.t :=
  Table.mk 100%Z PERCENTAGE
    (TableBorders.mk blackBorder blackBorder blackBorder blackBorder
       blackBorder blackBorder)
    (map (fun cell =>
            TableCell.mk
              [Paragraph.mk
                 [TextRun.mk (Some cell) (Some (Style.font STYLES.normal))
                    (Some (Style.size STYLES.normal)) (Some (js "000000"))
                    (Some true) None None None]
                 None None (Some CENTER) None None]
              (Some (js "center")))
         header
     :: map (fun row =>
               map (fun cell =>
                      TableCell.mk
                        [Paragraph.mk
                           [TextRun.mk (Some cell)
                              (Some (Style.font STYLES.normal))
                              (Some (Style.size STYLES.normal))
                              (Some (js "000000")) None None None None]
                           None None None None None]
                        None)
                   row)
            rows).

(** ** [createListItemParagraph] *)

(** [`${index}`]: an index that was not passed prints as [undefined]. *)
Definition indexText (index : option N) : jsstring :=
  match index with
  | Some n => Number_toString n
  | None => js "undefined"
  end.

Definition createListItemParagraph (text : jsstring) (level : nat)
  (ordered : bool) (index : option N) : Paragraph.t :=
  let bullet := if ordered then indexText index ++ js ". " else js "• " in
  let runs := parseInlineContent (trim text) in
  Paragraph.mk
    (TextRun.mk (Some bullet) (Some (Style.font STYLES.normal))
       (Some (Style.size STYLES.normal)) (Some (js "000000"))
       (Some ordered) None None None
     :: runs)
    None
    (Some (Spacing.mk
       (Some (if (0 <? level)%nat then convertInchesToTwip (2 # 100)
              else convertInchesToTwip (5 # 100)))
       (Some (if (0 <? level)%nat then convertInchesToTwip (2 # 100)
              else convertInchesToTwip (5 # 100)))
       (Some 360%Z) (Some EXACT)))
    None
    (Some (Indent.mk
       (Some (convertInchesToTwip
                ((3 # 10) * inject_Z (Z.of_nat level + 1))))
       None None
       (Some (if ordered then convertInchesToTwip (3 # 10)
              else convertInchesToTwip (2 # 10)))))
    None.

(** ** [processNestedList] *)

(** The text shown for an item: inside a nested list, an item that starts
    with the marker of the parent item loses that prefix. *)
Definition displayTextOf (level : nat) (parentBullet itemText : jsstring)
  : jsstring :=
  if (0 <? level)%nat && truthy parentBullet
     && startsWith itemText parentBullet
  then trim (substring itemText (List.length parentBullet))
  else itemText.

(** [children] is the array the paragraphs are pushed to; the function
    returns it as it is after the call. *)
Fixpoint processNestedList (children : list Block) (listToken : ListToken)
  (level : nat) (parentBullet : jsstring) {struct listToken} : list Block :=
  match listToken with
  | mkList ordered0 start items =>
    let ordered := match ordered0 with Some b => b | None => false end in
    let index0 := match start with Some n => n | None => 1 end in
    fst (fold_left
      (fun (st : list Block * N) (item : ListItem) =>
         let (children, index) := st in
         match item with
         | mkItem itemText itemTokens =>
           let children :=
             if truthy (trim itemText) then
               children ++
                 [BParagraph
                    (createListItemParagraph
                       (displayTextOf level parentBullet itemText)
                       level ordered
                       (if ordered then Some index else None))]
             else children in
           let currentBullet :=
             if ordered then Number_toString index ++ js ". " else [] in
           let index := if ordered then index + 1 else index in
           let children :=
             match itemTokens with
             | Some subTokens =>
               fold_left
                 (fun children subToken =>
                    match subToken with
                    | ListTok sub =>
                      processNestedList children sub (S level) currentBullet
                    | _ => children
                    end)
                 subTokens children
             | None => children
             end in
           (children, index)
         end)
      items (children, index0))
  end.

(** The index of the source is a double, which counts exactly up to 2^53
    ([index++] leaves a larger value as it is); the index of the model is a
    natural number.  The two are the same on a list in which no ordered
    list, the nested ones included, counts past that bound. *)
Fixpoint indexExact (listToken : ListToken) : bool :=
  match listToken with
  | mkList ordered0 start items =>
    let ordered := match ordered0 with Some b => b | None => false end in
    let index0 := match start with Some n => n | None => 1 end in
    (if ordered then index0 + N.of_nat (List.length items) <=? 2 ^ 53
     else true)
    && forallb
         (fun item =>
            match item with
            | mkItem _ itemTokens =>
              match itemTokens with
              | Some subTokens =>
                forallb
                  (fun subToken =>
                     match subToken with
                     | ListTok sub => indexExact sub
                     | _ => true
                     end)
                  subTokens
              | None => true
              end
            end)
         items
  end.

(** The two loops of [processNestedList], named for the proofs: the loop
    over the tokens of one item, and one round of the loop over the items
    (the pair is [children] and [index]). *)
Definition renderSubTokens (children : list Block)
  (itemTokens : option (list MarkedToken)) (level : nat)
  (currentBullet : jsstring) : list Block :=
  match itemTokens with
  | Some subTokens =>
    fold_left
      (fun children subToken =>
         match subToken with
         | ListTok sub =>
           processNestedList children sub (S level) currentBullet
         | _ => children
         end)
      subTokens children
  | None => children
  end.

Definition processItem (level : nat) (parentBullet : jsstring)
  (ordered : bool) (st : list Block * N) (item : ListItem)
  : list Block * N :=
  let (children, index) := st in
  match item with
  | mkItem itemText itemTokens =>
    let children :=
      if truthy (trim itemText) then
        children ++
          [BParagraph
             (createListItemParagraph
                (displayTextOf level parentBullet itemText)
                level ordered
                (if ordered then Some index else None))]
      else children in
    let currentBullet :=
      if ordered then Number_toString index ++ js ". " else [] in
    let index := if ordered then index + 1 else index in
    (renderSubTokens children itemTokens level currentBullet, index)
  end.

(** Induction on list tokens: a property holds of every list token when it
    holds of a list token as soon as it holds of the list tokens among the
    tokens of its items. *)
Section ListToken_induction.

Variable P : ListToken -> Prop.

Definition subListsHave (item : ListItem) : Prop :=
  match item with
  | mkItem _ (Some subTokens) =>
    Forall (fun subToken => match subToken with
                            | ListTok sub => P sub
                            | _ => True
                            end) subTokens
  | mkItem _ None => True
  end.

Hypothesis step :
  forall ordered start items,
    Forall subListsHave items -> P (mkList ordered start items).

Fixpoint ListToken_nested_ind (listToken : ListToken) : P listToken :=
  match listToken with
  | mkList ordered start items =>
    step ordered start items
      ((fix onItems (items : list ListItem) : Forall subListsHave items :=
          match items with
          | [] => Forall_nil _
          | item :: rest =>
            Forall_cons item
              (match item return subListsHave item with
               | mkItem _ None => I
               | mkItem _ (Some subTokens) =>
                 (fix onTokens (l : list MarkedToken)
                    : Forall (fun subToken => match subToken with
                                              | ListTok sub => P sub
                                              | _ => True
                                              end) l :=
                    match l with
                    | [] => Forall_nil _
                    | t :: l' =>
                      Forall_cons t
                        (match t return match t with
                                        | ListTok sub => P sub
                                        | _ => True
                                        end with
                         | ListTok sub => ListToken_nested_ind sub
                         | _ => I
                         end)
                        (onTokens l')
                    end) subTokens
               end)
              (onItems rest)
          end) items)
  end.

End ListToken_induction.

(** What a test reads off a rendered block: the texts of its runs, and the
    text of its first run (the marker of a list item paragraph). *)
Definition blockTexts (b : Block) : list (option jsstring) :=
  match b with
  | BParagraph p => map TextRun.text (Paragraph.children p)
  | BTable _ => []
  end.

Definition blockMarker (b : Block) : option jsstring :=
  match b with
  | BParagraph p =>
    match Paragraph.children p with
    | r :: _ => TextRun.text r
    | [] => None
    end
  | BTable _ => None
  end.

(** ** [createBlockquoteParagraph] *)

Definition createBlockquoteParagraph (text : jsstring) : Paragraph.t :=
  Paragraph.mk
    [TextRun.mk (Some text) (Some (Style.font STYLES.normal))
       (Some (Style.size STYLES.normal)) (Some (js "000000"))
       None (Some true) None None]
    None
    (Some (Spacing.mk (Some (convertInchesToTwip (1 # 10)))
             (Some (convertInchesToTwip (1 # 10))) (Some 360%Z) None))
    None
    (Some (Indent.mk (Some (convertInchesToTwip (5 # 10)))
             (Some (convertInchesToTwip (5 # 10))) None None))
    (Some (Border.mk SINGLE 3%Z (js "808080"))).

(** ** The token loop of [createWordDoc] *)

Definition headingMap : list (Z * HeadingLevel) :=
  [(1, HEADING_1); (2, HEADING_2); (3, HEADING_3);
   (4, HEADING_4); (5, HEADING_5); (6, HEADING_6)]%Z.

(** [headingMap[depth] || HeadingLevel.HEADING_1] *)
Definition headingOf (depth : Z) : HeadingLevel :=
  match find (fun entry => (fst entry =? depth)%Z) headingMap with
  | Some entry => snd entry
  | None => HEADING_1
  end.

(** The runs of a [code] token: one run a line, and a break run after every
    line but the last. *)
Fixpoint codeRuns (codeLines : list jsstring) : list TextRun.t :=
  match codeLines with
  | [] => []
  | line :: rest =>
    TextRun.mk (Some line) (Some (js "Courier New")) (Some 24%Z)
      (Some (js "000000")) None None None None
    :: match rest with
       | [] => []
       | _ :: _ =>
         TextRun.mk None None None None None None None (Some 1%Z)
         :: codeRuns rest
       end
  end.

(** One round of [for (const token of tokens) switch (token.type)]. *)
Definition renderToken (children : list Block) (token : MarkedToken)
  : list Block :=
  match token with
  | Heading depth text =>
    let style := getHeadingStyle depth in
    let children :=
      if (depth =? 1)%Z then
        children ++
          [BParagraph
             (Paragraph.mk [] None
                (Some (Spacing.mk (Some (convertInchesToTwip (3 # 10)))
                         None None None))
                None None None)]
      else if (depth =? 2)%Z then
        children ++
          [BParagraph
             (Paragraph.mk [] None
                (Some (Spacing.mk (Some (convertInchesToTwip (15 # 100)))
                         (Some (convertInchesToTwip (15 # 100))) None None))
                None None None)]
      else children in
    children ++
      [BParagraph
         (Paragraph.mk
            [TextRun.mk (Some text) (Some (Style.font style))
               (Some (Style.size style)) (Some (js "000000"))
               (Style.bold style) None None None]
            (Some (headingOf depth))
            (Some (Spacing.mk
               (Some (if (depth =? 1)%Z then convertInchesToTwip (5 # 10)
                      else Num 0))
               (Some (if (depth =? 1)%Z then convertInchesToTwip (3 # 10)
                      else Num 0))
               None None))
            None None None)]
  | ParagraphTok text =>
    children ++
      [BParagraph
         (Paragraph.mk (parseInlineContent text) None
            (Some (Spacing.mk None None (Some 560%Z) (Some EXACT)))
            (Some BOTH)
            (Some (Indent.mk None None
                     (Some (convertInchesToTwip (29 # 100))) None))
            None)]
  | Code text =>
    children ++
      [BParagraph
         (Paragraph.mk (codeRuns (split 10 text)) None
            (Some (Spacing.mk (Some (convertInchesToTwip (2 # 10)))
                     (Some (convertInchesToTwip (2 # 10))) None None))
            (Some LEFT)
            (Some (Indent.mk (Some (convertInchesToTwip (5 # 10)))
                     None None None))
            None)]
  | TableTok header rows =>
    children ++ [BTable (createTableFromMarkdown header rows)]
  | ListTok listToken => processNestedList children listToken 0 []
  | Blockquote (Some quotes) =>
    fold_left
      (fun children quote =>
         match quote with
         | ParagraphTok text =>
           children ++ [BParagraph (createBlockquoteParagraph text)]
         | _ => children
         end)
      quotes children
  | Blockquote None => children
  | Hr =>
    children ++
      [BParagraph
         (Paragraph.mk
            [TextRun.mk (Some (JS.repeat (js "─") 50)) None None
               (Some (js "000000")) None None None None]
            None
            (Some (Spacing.mk (Some (convertInchesToTwip (2 # 10)))
                     (Some (convertInchesToTwip (2 # 10))) None None))
            (Some CENTER) None None)]
  | Other _ => children
  end.

(** The [children] array after the loop over [tokens]. *)
Definition renderTokens (tokens : list MarkedToken) : list Block :=
  fold_left renderToken tokens [].

(* ===================================================================== *)
(** * The tool handlers and their collaborators *)
(* ===================================================================== *)

Inductive ErrorCode : Type := InvalidParams | InternalError | MethodNotFound.

(** What the program throws and catches: an [McpError] of the SDK, or an
    [Error] raised by a collaborator. *)
Inductive Exn : Type :=
| McpError (code : ErrorCode) (message : jsstring)
| Error (message : jsstring).

(** [error.message], read in the [catch] blocks of the handlers; the [try]
    blocks raise collaborator errors only. *)
Definition errorMessage (e : Exn) : jsstring :=
  match e with
  | McpError _ message => message
  | Error message => message
  end.

(** The options of [marked] that [marked.use] sets here. *)
Record MarkedOptions : Type := mkOptions {
  gfm : bool;
  breaks : bool
}.

(** The collaborators the program calls and does not define: the tokenizer
    ([marked.lexer]), the serializer ([Packer.toBuffer]) and the file system
    ([fs.readFile], [fs.mkdir], [fs.writeFile], [path.dirname]).  A call
    either fails with the message of its error or gives its result. *)
Record Collaborators : Type := mkCollaborators {
  FS : Type;
  Buffer : Type;
  marked_lexer : MarkedOptions -> jsstring -> jsstring + list MarkedToken;
  Packer_toBuffer : Document.t -> jsstring + Buffer;
  fs_readFile : jsstring -> FS -> jsstring + jsstring;
  fs_mkdir : jsstring -> FS -> jsstring + FS;
  fs_writeFile : jsstring -> Buffer -> FS -> jsstring + FS;
  path_dirname : jsstring -> jsstring
}.

(** A call of a collaborator, as the program makes it. *)
Inductive Event : Type :=
| EReadFile (path : jsstring)
| EMarkedUse (options : MarkedOptions)
| ELexer (src : jsstring)
| EToBuffer (doc : Document.t)
| EMkdir (dir : jsstring)
| EWriteFile (path : jsstring).

(** The arguments of the two tools.  The request carries them as JSON, so a
    property can be missing: [None] stands for [undefined]. *)
Module MarkdownToWordArgs.
Record t : Type := mk {
  markdownPath : option jsstring;
  outputPath : option jsstring
}.
End MarkdownToWordArgs.

Module WriteMarkdownToWordArgs.
Record t : Type := mk {
  content : option jsstring;
  outputPath : option jsstring
}.
End WriteMarkdownToWordArgs.

Section Handlers.

Variable ext : Collaborators.

(** What a call can read and change: the file system, the global options of
    [marked], and the calls made so far. *)
Record World : Type := mkWorld {
  fs : FS ext;
  markedOptions : MarkedOptions;
  trace : list Event
}.

(** A computation that may throw and that changes the world. *)
Definition M (A : Type) : Type := World -> (Exn + A) * World.

Definition ret {A : Type} (a : A) : M A := fun w => (inr a, w).

Definition bind {A B : Type} (m : M A) (k : A -> M B) : M B :=
  fun w =>
    match m w with
    | (inl e, w') => (inl e, w')
    | (inr a, w') => k a w'
    end.

Definition throw {A : Type} (e : Exn) : M A := fun w => (inl e, w).

(** [try { body } catch (error) { handler }] *)
Definition tryCatch {A : Type} (body : M A) (handler : Exn -> M A) : M A :=
  fun w =>
    match body w with
    | (inl e, w') => handler e w'
    | (inr a, w') => (inr a, w')
    end.

Notation "x <- m ;; k" := (bind m (fun x => k))
  (at level 61, m at next level, right associativity).
Notation "m ;;; k" := (bind m (fun _ => k))
  (at level 61, right associativity).

Definition logged (e : Event) (w : World) : World :=
  mkWorld (fs w) (markedOptions w) (trace w ++ [e]).

Definition lift {A : Type} (r : jsstring + A) (w : World) : (Exn + A) * World :=
  match r with
  | inl message => (inl (Error message), w)
  | inr a => (inr a, w)
  end.

Definition readFile (path : jsstring) : M jsstring :=
  fun w => lift (fs_readFile ext path (fs w)) (logged (EReadFile path) w).

Definition marked_use (options : MarkedOptions) : M unit :=
  fun w =>
    (inr tt, mkWorld (fs w) options (trace w ++ [EMarkedUse options])).

Definition lexer (src : jsstring) : M (list MarkedToken) :=
  fun w => lift (marked_lexer ext (markedOptions w) src) (logged (ELexer src) w).

Definition toBuffer (doc : Document.t) : M (Buffer ext) :=
  fun w => lift (Packer_toBuffer ext doc) (logged (EToBuffer doc) w).

Definition mkdir (dir : jsstring) : M unit :=
  fun w =>
    match fs_mkdir ext dir (fs w) with
    | inl message => (inl (Error message), logged (EMkdir dir) w)
    | inr fs' =>
      (inr tt, mkWorld fs' (markedOptions w) (trace w ++ [EMkdir dir]))
    end.

Definition writeFile (path : jsstring) (buffer : Buffer ext) : M unit :=
  fun w =>
    match fs_writeFile ext path buffer (fs w) with
    | inl message => (inl (Error message), logged (EWriteFile path) w)
    | inr fs' =>
      (inr tt, mkWorld fs' (markedOptions w) (trace w ++ [EWriteFile path]))
    end.

(** ** [createWordDoc] *)

Definition createWordDoc (markdownContent : jsstring) : M Document.t :=
  let processedMarkdown := preprocessMarkdown markdownContent in
  marked_use (mkOptions true true) ;;;
  tokens <- lexer processedMarkdown ;;
  ret (Document.mk [renderTokens tokens]).

(** ** [saveWordDocument] *)

Definition saveWordDocument (doc : Document.t) (outputPath : jsstring)
  : M unit :=
  buffer <- toBuffer doc ;;
  let dir := path_dirname ext outputPath in
  mkdir dir ;;;
  writeFile outputPath buffer.

(** ** [handleMarkdownToWord] and [handleWriteMarkdownToWord] *)

(** [!v] for a property that is a string when it is there: true when the
    property is missing ([None]) and when it is the empty string. *)
Definition falsy (v : option jsstring) : bool :=
  match v with
  | None => true
  | Some s => negb (truthy s)
  end.

Definition valueOf (v : option jsstring) : jsstring :=
  match v with
  | None => js "undefined"
  | Some s => s
  end.

(** A handler returns [{ content: [{ type: 'text', text }] }]; the model
    returns [text]. *)
Definition handleMarkdownToWord (args : MarkdownToWordArgs.t) : M jsstring :=
  if falsy (MarkdownToWordArgs.markdownPath args)
     || falsy (MarkdownToWordArgs.outputPath args) then
    throw (McpError InvalidParams (js "缺少必要的参数"))
  else
    tryCatch
      (markdownContent <-
         readFile (valueOf (MarkdownToWordArgs.markdownPath args)) ;;
       doc <- createWordDoc markdownContent ;;
       saveWordDocument doc (valueOf (MarkdownToWordArgs.outputPath args)) ;;;
       ret (js "成功将Markdown文件转换为Word文档: "
              ++ valueOf (MarkdownToWordArgs.outputPath args)))
      (fun error =>
         throw (McpError InternalError
                  (js "处理文件失败: " ++ errorMessage error))).

Definition handleWriteMarkdownToWord (args : WriteMarkdownToWordArgs.t)
  : M jsstring :=
  if falsy (WriteMarkdownToWordArgs.content args)
     || falsy (WriteMarkdownToWordArgs.outputPath args) then
    throw (McpError InvalidParams (js "缺少必要的参数"))
  else
    tryCatch
      (doc <- createWordDoc (valueOf (WriteMarkdownToWordArgs.content args)) ;;
       saveWordDocument doc
         (valueOf (WriteMarkdownToWordArgs.outputPath args)) ;;;
       ret (js "成功创建Word文档: "
              ++ valueOf (WriteMarkdownToWordArgs.outputPath args)))
      (fun error =>
         throw (McpError InternalError
                  (js "创建文档失败: " ++ errorMessage error))).

End Handlers.

Arguments mkWorld {ext}.
Arguments fs {ext}.
Arguments markedOptions {ext}.
Arguments trace {ext}.

(** ** The handler of [CallToolRequestSchema] *)

(** [request.params.arguments]: a JSON object, of which the handlers read
    three properties. *)
Module ToolArguments.
Record t : Type := mk {
  markdownPath : option jsstring;
  content : option jsstring;
  outputPath : option jsstring
}.
End ToolArguments.

Section Dispatcher.

Variable ext : Collaborators.

(** The message of the [TypeError] the engine raises when a property of
    [undefined] is read, for the name of the property. *)
Variable typeErrorMessage : jsstring -> jsstring.

(** [arguments] is [None] when the request carries no arguments: the cast
    to the argument type checks nothing, and the handler then fails on its
    first property read. *)
Definition callTool (name : jsstring) (arguments : option ToolArguments.t)
  : M ext jsstring :=
  tryCatch ext
    (if JS.eqb name (js "markdown_to_word") then
       match arguments with
       | Some args =>
         handleMarkdownToWord ext
           (MarkdownToWordArgs.mk (ToolArguments.markdownPath args)
              (ToolArguments.outputPath args))
       | None => throw ext (Error (typeErrorMessage (js "markdownPath")))
       end
     else if JS.eqb name (js "write_markdown_to_word") then
       match arguments with
       | Some args =>
         handleWriteMarkdownToWord ext
           (WriteMarkdownToWordArgs.mk (ToolArguments.content args)
              (ToolArguments.outputPath args))
       | None => throw ext (Error (typeErrorMessage (js "content")))
       end
     else throw ext (McpError MethodNotFound (js "未知工具: " ++ name)))
    (fun error =>
       match error with
       | McpError _ _ => throw ext error
       | Error _ =>
         throw ext (McpError InternalError
                      (js "处理文档时发生错误: " ++ errorMessage error))
       end).

End Dispatcher.

(** ** The handlers as the request handler calls them

    The two handlers are declared with an arguments object, and
    [handleMarkdownToWord] and [handleWriteMarkdownToWord] above are the
    handlers on one.  At run time the request handler passes on what the
    request carries, which is [undefined] for a request without arguments
    ([None] here): the guard of the handler, which stands before the [try],
    then fails on its first property read and the handler throws that
    [TypeError]. *)
Section HandlerCalls.

Variable ext : Collaborators.
Variable typeErrorMessage : jsstring -> jsstring.

Definition handleMarkdownToWordCall (args : option MarkdownToWordArgs.t)
  : M ext jsstring :=
  match args with
  | Some args => handleMarkdownToWord ext args
  | None => throw ext (Error (typeErrorMessage (js "markdownPath")))
  end.

Definition handleWriteMarkdownToWordCall
  (args : option WriteMarkdownToWordArgs.t) : M ext jsstring :=
  match args with
  | Some args => handleWriteMarkdownToWord ext args
  | None => throw ext (Error (typeErrorMessage (js "content")))
  end.

End HandlerCalls.

(** ** An environment for the examples

    A file system that is a list of named files, a serializer that keeps
    the document, and the token streams of [marked] for the two texts the
    examples convert.  The examples write to file names without a directory
    part, whose [path.dirname] is ["."]. *)

Definition sampleFS : Type := list (jsstring * (jsstring + Document.t)).

Fixpoint sample_readFile (path : jsstring) (files : sampleFS)
  : jsstring + jsstring :=
  match files with
  | [] => inl (js "ENOENT: no such file or directory")
  | (name, data) :: rest =>
    if JS.eqb name path then
      match data with
      | inl text => inr text
      | inr _ => inl (js "not a text file")
      end
    else sample_readFile path rest
  end.

Definition sample_lexer (options : MarkedOptions) (src : jsstring)
  : jsstring + list MarkedToken :=
  if JS.eqb src (js "# Title\n\nHello **world**.\n") then
    inr [Heading 1 (js "Title"); ParagraphTok (js "Hello **world**.")]
  else if JS.eqb src [] then inr []
  else inl (js "no token stream recorded for this text").

Definition sample : Collaborators :=
  mkCollaborators sampleFS Document.t
    sample_lexer
    (fun doc => inr doc)
    sample_readFile
    (fun dir files => inr files)
    (fun path buffer files => inr ((path, inr buffer) :: files))
    (fun path => js ".").

Definition sampleWorld (files : sampleFS) : World sample :=
  @mkWorld sample files (mkOptions true false) [].
(* ===================================================================== *)
(** * The string primitives on examples *)
(* ===================================================================== *)

Example js_ascii : js "1. **a**" = [49; 46; 32; 42; 42; 97; 42; 42].
Proof. reflexivity. Qed.

Example js_newline : js "a\nb" = [97; 10; 98].
Proof. reflexivity. Qed.

Example js_bullet : js "• " = [8226; 32].
Proof. reflexivity. Qed.

Example js_rule : js "─" = [9472].
Proof. reflexivity. Qed.

Example trim_example : trim (js "  \t- a b \n") = js "- a b".
Proof. reflexivity. Qed.

Example split_example : split 10 (js "a\n\nb\n") = [js "a"; []; js "b"; []].
Proof. reflexivity. Qed.

Example mainListMatch_examples :
  map mainListMatch
    [js "12.  **a*b**"; js "1. ****"; js "1. *****"; js "1.**a**";
     js "1. **a** b"; js "1. **a\rb**"]
  = [Some [js "12"; js "a*b"]; None; Some [js "1"; js "*"]; None; None; None].
Proof. vm_compute. reflexivity. Qed.

Example nestedDashMatch_examples :
  map nestedDashMatch
    [js "- sub a"; js "-   x y"; js "-x"; js "-"; js "-  "; js "- a\rb";
     js "-\r x"]
  = [Some [js "sub a"]; Some [js "x y"]; None; None; Some [js " "]; None;
     Some [js "x"]].
Proof. vm_compute. reflexivity. Qed.

Example Number_toString_example :
  map Number_toString [0; 5; 10; 1234] = map js ["0"; "5"; "10"; "1234"]%string.
Proof. reflexivity. Qed.

(* ===================================================================== *)
(** * The inline run parser *)
(* ===================================================================== *)

Lemma round_advances (content : jsstring) (i : nat) (st : InlineState) :
  (i < fst (round content i st))%nat.
Proof.
  unfold round.
  repeat match goal with
         | |- context [if ?b then _ else _] => destruct b
         end; cbn [fst]; lia.
Qed.

(** The loop ends within [length content - i] rounds: more fuel changes
    nothing. *)
Lemma scan_fuel (f1 f2 : nat) (content : jsstring) :
  forall (i : nat) (st : InlineState),
    (List.length content - i <= f1)%nat ->
    (List.length content - i <= f2)%nat ->
    scan f1 content i st = scan f2 content i st.
Proof.
  revert f2.
  induction f1 as [|f1 IH]; intros f2 i st H1 H2.
  - destruct f2 as [|f2]; [reflexivity|].
    cbn [scan].
    destruct (Nat.ltb_spec i (List.length content)); [lia | reflexivity].
  - destruct f2 as [|f2]; cbn [scan];
      destruct (Nat.ltb_spec i (List.length content)); try reflexivity;
      try lia.
    pose proof (round_advances content i st) as Hadv.
    destruct (round content i st) as [i' st']. cbn [fst] in Hadv.
    apply IH; lia.
Qed.

(** X26.  [parseInlineContent] runs its loop to the end: the loop stops
    within [content.length] rounds, so it gives the same runs with any
    larger bound on the rounds. *)
Lemma parseInlineContent_fuel (content : jsstring) (extra : nat) :
  parseInlineContent content =
  runs (addCurrentText
          (scan (List.length content + extra) content 0
             (mkInline [] [] false false false false))).
Proof.
  unfold parseInlineContent.
  rewrite (scan_fuel (List.length content) (List.length content + extra));
    [reflexivity | lia | lia].
Qed.

(** C3.  The inline run parser on the five marker examples:
    ["**bold**"] gives one run with bold set, ["*it*"] one run with italics
    set, ["***both***"] one run with bold and italics set, ["`code`"] one
    run in the code style (Courier New, size 24), and the unterminated
    ["**open"] one bold run that holds all the text after the marker.  The
    parser is a total function: no input raises an error. *)
Theorem C3_inline_marker_runs :
  parseInlineContent (js "**bold**") =
    [TextRun.mk (Some (js "bold")) (Some (js "仿宋_GB2312")) (Some 32%Z)
       (Some (js "000000")) (Some true) (Some false) (Some false) None]
  /\ parseInlineContent (js "*it*") =
    [TextRun.mk (Some (js "it")) (Some (js "仿宋_GB2312")) (Some 32%Z)
       (Some (js "000000")) (Some false) (Some true) (Some false) None]
  /\ parseInlineContent (js "***both***") =
    [TextRun.mk (Some (js "both")) (Some (js "仿宋_GB2312")) (Some 32%Z)
       (Some (js "000000")) (Some true) (Some true) (Some false) None]
  /\ parseInlineContent (js "`code`") =
    [TextRun.mk (Some (js "code")) (Some (js "Courier New")) (Some 24%Z)
       (Some (js "000000")) (Some false) (Some false) (Some false) None]
  /\ parseInlineContent (js "**open") =
    [TextRun.mk (Some (js "open")) (Some (js "仿宋_GB2312")) (Some 32%Z)
       (Some (js "000000")) (Some true) (Some false) (Some false) None].
Proof.
  repeat split; vm_compute; reflexivity.
Qed.

(* ===================================================================== *)
(** * Heading styles *)
(* ===================================================================== *)

(** C6.  [getHeadingStyle] sends depth 1 to the title style [h1], depth 2
    to the section style [h2], depth 3 to the bold body style [h3], and
    every depth from 4 on to the body style [normal]; and the block
    renderer ends what it pushes for a heading token with the heading
    paragraph, whose one run is the heading text in the font, size and
    weight of that style. *)
Theorem C6_heading_style_by_depth :
  getHeadingStyle 1 = STYLES.h1
  /\ getHeadingStyle 2 = STYLES.h2
  /\ getHeadingStyle 3 = STYLES.h3
  /\ (forall depth : Z,
        (4 <= depth)%Z -> getHeadingStyle depth = STYLES.normal)
  /\ (forall (children : list Block) (depth : Z) (text : jsstring),
        exists (spacer : list Block) (heading : option HeadingLevel)
               (spacing : option Spacing.t),
          renderToken children (Heading depth text)
          = children ++ spacer
            ++ [BParagraph
                  (Paragraph.mk
                     [TextRun.mk (Some text)
                        (Some (Style.font (getHeadingStyle depth)))
                        (Some (Style.size (getHeadingStyle depth)))
                        (Some (js "000000"))
                        (Style.bold (getHeadingStyle depth))
                        None None None]
                     heading spacing None None None)]).
Proof.
  split; [reflexivity|]. split; [reflexivity|]. split; [reflexivity|].
  split.
  - intros depth Hdepth. unfold getHeadingStyle.
    destruct (Z.eqb_spec depth 1); [lia|].
    destruct (Z.eqb_spec depth 2); [lia|].
    destruct (Z.eqb_spec depth 3); [lia|].
    reflexivity.
  - intros children depth text. unfold renderToken.
    destruct (depth =? 1)%Z.
    + eexists [_], _, _. rewrite <- app_assoc. reflexivity.
    + destruct (depth =? 2)%Z.
      * eexists [_], _, _. rewrite <- app_assoc. reflexivity.
      * exists [], (Some (headingOf depth)). eexists. reflexivity.
Qed.

Lemma C6_heading_style_by_depth_witness :
  (4 <= 6)%Z /\ getHeadingStyle 6 = STYLES.normal.
Proof.
  split; [lia|].
  apply (proj1 (proj2 (proj2 (proj2 C6_heading_style_by_depth))) 6%Z). lia.
Defined.

(* ===================================================================== *)
(** * The nested-list normalizer *)
(* ===================================================================== *)

(** C2.  On ["1. **Step**\n- sub a\n- sub b\n"] the normalizer leaves the
    main item as it is and gives each dash line three leading blanks. *)
Theorem C2_normalizer_targeted_case :
  preprocessMarkdown (js "1. **Step**\n- sub a\n- sub b\n")
  = js "1. **Step**\n   - sub a\n   - sub b\n".
Proof.
  vm_compute. reflexivity.
Qed.

Lemma split_not_nil (sep : N) (s : jsstring) : split sep s <> [].
Proof.
  destruct s as [|c r]; cbn [split]; [discriminate|].
  destruct (c =? sep); [discriminate|].
  destruct (split sep r); discriminate.
Qed.

(** Splitting at a separator and joining with it gives the text back. *)
Lemma join_split (sep : N) (s : jsstring) : join sep (split sep s) = s.
Proof.
  induction s as [|c r IH]; [reflexivity|].
  cbn [split].
  pose proof (split_not_nil sep r) as Hne.
  destruct (N.eqb_spec c sep) as [->|Hc].
  - destruct (split sep r) as [|h t]; [contradiction|].
    change (join sep ([] :: h :: t)) with (sep :: join sep (h :: t)).
    now rewrite IH.
  - destruct (split sep r) as [|h t]; [contradiction|].
    destruct t as [|h' t'].
    + cbn in IH |- *. now rewrite IH.
    + change (join sep ((c :: h) :: h' :: t'))
        with (c :: (h ++ sep :: join sep (h' :: t'))).
      change (join sep (h :: h' :: t'))
        with (h ++ sep :: join sep (h' :: t')) in IH.
      now rewrite IH.
Qed.

(** While no main item has been seen, a line that is no main item is pushed
    as it is and no main item is recorded. *)
Lemma preprocessLine_no_main (st : PreState) (line : jsstring) :
  currentMainListItem st = None ->
  mainListMatch (trim line) = None ->
  resultLines (preprocessLine st line) = resultLines st ++ [line]
  /\ currentMainListItem (preprocessLine st line) = None.
Proof.
  intros Hcur Hmain. unfold preprocessLine. rewrite Hmain, Hcur.
  destruct (nestedDashMatch (trim line)); split; reflexivity.
Qed.

Lemma preprocess_lines_no_main (lines : list jsstring) :
  forall st : PreState,
    currentMainListItem st = None ->
    (forall line, In line lines -> mainListMatch (trim line) = None) ->
    resultLines (fold_left preprocessLine lines st) = resultLines st ++ lines.
Proof.
  induction lines as [|line rest IH]; intros st Hcur Hall.
  - cbn. now rewrite app_nil_r.
  - cbn [fold_left].
    destruct (preprocessLine_no_main st line Hcur) as [Hres Hcur'].
    { apply Hall. now left. }
    rewrite IH; [| exact Hcur' | intros l Hl; apply Hall; now right].
    rewrite Hres, <- app_assoc. reflexivity.
Qed.

(** A text with no main-item line comes out of the normalizer as it went
    in. *)
Lemma preprocessMarkdown_no_main (markdown : jsstring) :
  (forall line, In line (split 10 markdown) ->
                mainListMatch (trim line) = None) ->
  preprocessMarkdown markdown = markdown.
Proof.
  intros Hall. unfold preprocessMarkdown.
  rewrite preprocess_lines_no_main; [| reflexivity | exact Hall].
  cbn [resultLines app]. apply join_split.
Qed.

(** C7.  On a text none of whose lines is, after trimming, a main item
    ([<digits>. **<text>**]), running the normalizer twice gives what
    running it once gives. *)
Theorem C7_normalizer_idempotent_without_main_item (markdown : jsstring) :
  (forall line, In line (split 10 markdown) ->
                mainListMatch (trim line) = None) ->
  preprocessMarkdown (preprocessMarkdown markdown)
  = preprocessMarkdown markdown.
Proof.
  intros Hall.
  rewrite (preprocessMarkdown_no_main markdown Hall).
  exact (preprocessMarkdown_no_main markdown Hall).
Qed.

Lemma C7_normalizer_idempotent_without_main_item_witness :
  forallb (fun line => match mainListMatch (trim line) with
                       | None => true
                       | Some _ => false
                       end)
    (split 10 (js "# Title\n- a\n\n  - b\n2. plain\n")) = true
  /\ preprocessMarkdown
       (preprocessMarkdown (js "# Title\n- a\n\n  - b\n2. plain\n"))
     = preprocessMarkdown (js "# Title\n- a\n\n  - b\n2. plain\n").
Proof.
  split; [vm_compute; reflexivity|].
  apply C7_normalizer_idempotent_without_main_item.
  intros line Hin. vm_compute in Hin.
  repeat (destruct Hin as [<-|Hin]; [vm_compute; reflexivity|]).
  destruct Hin.
Defined.

(* ===================================================================== *)
(** * The list renderer *)
(* ===================================================================== *)

(** [processNestedList] is its loop over the items. *)
Lemma processNestedList_eq (children : list Block)
  (ordered : option bool) (start : option N) (items : list ListItem)
  (level : nat) (parentBullet : jsstring) :
  processNestedList children (mkList ordered start items) level parentBullet
  = fst (fold_left
           (processItem level parentBullet
              (match ordered with Some b => b | None => false end))
           items
           (children, match start with Some n => n | None => 1 end)).
Proof. reflexivity. Qed.

Lemma renderSubTokens_cons (children : list Block) (subToken : MarkedToken)
  (more : list MarkedToken) (level : nat) (currentBullet : jsstring) :
  renderSubTokens children (Some (subToken :: more)) level currentBullet
  = renderSubTokens
      (match subToken with
       | ListTok sub => processNestedList children sub (S level) currentBullet
       | _ => children
       end)
      (Some more) level currentBullet.
Proof. reflexivity. Qed.

(** The renderer only pushes: what it leaves in [children] is what was
    there, followed by what it renders into an empty array. *)
Lemma renderSubTokens_pushes_if (subTokens : list MarkedToken) :
  Forall (fun subToken =>
            match subToken with
            | ListTok sub =>
              forall children level parentBullet,
                processNestedList children sub level parentBullet
                = children ++ processNestedList [] sub level parentBullet
            | _ => True
            end) subTokens ->
  forall children level currentBullet,
    renderSubTokens children (Some subTokens) level currentBullet
    = children ++ renderSubTokens [] (Some subTokens) level currentBullet.
Proof.
  induction 1 as [|subToken more Hsub _ IH]; intros children level cb.
  - cbn. now rewrite app_nil_r.
  - rewrite !renderSubTokens_cons.
    destruct subToken; try apply IH.
    rewrite IH, (IH (processNestedList [] l (S level) cb)), Hsub.
    now rewrite app_assoc.
Qed.

Lemma processNestedList_pushes (listToken : ListToken) :
  forall children level parentBullet,
    processNestedList children listToken level parentBullet
    = children ++ processNestedList [] listToken level parentBullet.
Proof.
  induction listToken as [ordered start items Hitems]
    using ListToken_nested_ind.
  intros children level parentBullet.
  rewrite !processNestedList_eq.
  generalize (match start with Some n => n | None => 1 end) as index.
  revert children.
  induction Hitems as [|item rest Hitem _ IH]; intros children index.
  - cbn. now rewrite app_nil_r.
  - cbn [fold_left].
    destruct item as [itemText itemTokens].
    unfold processItem at 2 4. cbn beta iota.
    set (ordered' := match ordered with Some b => b | None => false end) in *.
    set (index' := if ordered' then index + 1 else index).
    set (bullet := if ordered' then Number_toString index ++ js ". " else []).
    set (own := if truthy (trim itemText)
                then [BParagraph
                        (createListItemParagraph
                           (displayTextOf level parentBullet itemText)
                           level ordered'
                           (if ordered' then Some index else None))]
                else []).
    assert (Hown : forall c : list Block,
               (if truthy (trim itemText)
                then c ++ [BParagraph
                             (createListItemParagraph
                                (displayTextOf level parentBullet itemText)
                                level ordered'
                                (if ordered' then Some index else None))]
                else c) = c ++ own).
    { intros c. subst own. destruct (truthy (trim itemText));
        [reflexivity | now rewrite app_nil_r]. }
    rewrite !Hown. cbn [app].
    assert (Hsub : forall c : list Block,
               renderSubTokens c itemTokens level bullet
               = c ++ renderSubTokens [] itemTokens level bullet).
    { intros c. destruct itemTokens as [subTokens|].
      - apply renderSubTokens_pushes_if. exact Hitem.
      - cbn. now rewrite app_nil_r. }
    rewrite (Hsub (children ++ own)), (Hsub own).
    rewrite IH, (IH (own ++ _)).
    now rewrite !app_assoc.
Qed.

Lemma renderSubTokens_pushes (itemTokens : option (list MarkedToken))
  (children : list Block) (level : nat) (currentBullet : jsstring) :
  renderSubTokens children itemTokens level currentBullet
  = children ++ renderSubTokens [] itemTokens level currentBullet.
Proof.
  destruct itemTokens as [subTokens|]; [| cbn; now rewrite app_nil_r].
  apply renderSubTokens_pushes_if.
  apply Forall_forall. intros [] _; try exact I.
  intros. apply processNestedList_pushes.
Qed.

(** One round of the loop over the items, for an item whose text is not
    blank. *)
Lemma processItem_shown (level : nat) (parentBullet : jsstring)
  (ordered : bool) (children : list Block) (index : N)
  (itemText : jsstring) (itemTokens : option (list MarkedToken)) :
  truthy (trim itemText) = true ->
  processItem level parentBullet ordered (children, index)
    (mkItem itemText itemTokens)
  = (children
     ++ BParagraph
          (createListItemParagraph (displayTextOf level parentBullet itemText)
             level ordered (if ordered then Some index else None))
     :: renderSubTokens [] itemTokens level
          (if ordered then Number_toString index ++ js ". " else []),
     if ordered then index + 1 else index).
Proof.
  intros Hshown. unfold processItem. rewrite Hshown.
  rewrite renderSubTokens_pushes, <- app_assoc. reflexivity.
Qed.

(** The first run of a list item paragraph is its marker. *)
Lemma createListItemParagraph_marker (text : jsstring) (level : nat)
  (ordered : bool) (index : option N) :
  blockMarker (BParagraph (createListItemParagraph text level ordered index))
  = Some (if ordered then indexText index ++ js ". " else js "• ").
Proof. reflexivity. Qed.

(** C4, as the code has it.  For an ordered list token that starts at 5 and
    has three items whose text is not blank (not empty after trimming), the
    renderer pushes, in document order, three item paragraphs whose first
    runs are the markers ["5. "], ["6. "] and ["7. "]; each is followed by
    the paragraphs of the lists nested in its item, rendered one level
    deeper with that marker as the parent marker (none when the item has no
    nested list). *)
Theorem C4_ordered_list_markers (children : list Block)
  (t1 t2 t3 : jsstring) (k1 k2 k3 : option (list MarkedToken))
  (level : nat) (parentBullet : jsstring) :
  truthy (trim t1) = true ->
  truthy (trim t2) = true ->
  truthy (trim t3) = true ->
  processNestedList children
    (mkList (Some true) (Some 5) [mkItem t1 k1; mkItem t2 k2; mkItem t3 k3])
    level parentBullet
  = children
    ++ BParagraph
         (createListItemParagraph (displayTextOf level parentBullet t1)
            level true (Some 5))
       :: renderSubTokens [] k1 level (js "5. ")
    ++ BParagraph
         (createListItemParagraph (displayTextOf level parentBullet t2)
            level true (Some 6))
       :: renderSubTokens [] k2 level (js "6. ")
    ++ BParagraph
         (createListItemParagraph (displayTextOf level parentBullet t3)
            level true (Some 7))
       :: renderSubTokens [] k3 level (js "7. ")
  /\ blockMarker
       (BParagraph
          (createListItemParagraph (displayTextOf level parentBullet t1)
             level true (Some 5))) = Some (js "5. ")
  /\ blockMarker
       (BParagraph
          (createListItemParagraph (displayTextOf level parentBullet t2)
             level true (Some 6))) = Some (js "6. ")
  /\ blockMarker
       (BParagraph
          (createListItemParagraph (displayTextOf level parentBullet t3)
             level true (Some 7))) = Some (js "7. ").
Proof.
  intros H1 H2 H3.
  split; [| repeat split].
  rewrite processNestedList_eq. cbn [fold_left].
  rewrite (processItem_shown _ _ _ _ _ _ _ H1).
  rewrite (processItem_shown _ _ _ _ _ _ _ H2).
  rewrite (processItem_shown _ _ _ _ _ _ _ H3).
  cbn [fst].
  change (5 + 1) with 6. change (6 + 1) with 7.
  change (Number_toString 5 ++ js ". ") with (js "5. ").
  change (Number_toString 6 ++ js ". ") with (js "6. ").
  change (Number_toString 7 ++ js ". ") with (js "7. ").
  rewrite <- !app_assoc. reflexivity.
Qed.

Lemma C4_ordered_list_markers_witness :
  map blockMarker
    (processNestedList []
       (mkList (Some true) (Some 5)
          [mkItem (js "alpha") None; mkItem (js "**beta**") None;
           mkItem (js "gamma") None])
       0 [])
  = [Some (js "5. "); Some (js "6. "); Some (js "7. ")].
Proof.
  rewrite (proj1 (C4_ordered_list_markers [] (js "alpha") (js "**beta**")
                    (js "gamma") None None None 0 []
                    eq_refl eq_refl eq_refl)).
  reflexivity.
Defined.

(** C4 as stated fails on an item whose text is not empty but blank: the
    guard [if (itemText.trim())] pushes no paragraph for it, while the
    index still advances.  Three items with the non-empty texts ["a"],
    [" "], ["c"] give two paragraphs, marked ["5. "] and ["7. "]. *)
Lemma C4_blank_item_counterexample :
  forallb truthy [js "a"; js " "; js "c"] = true
  /\ map blockMarker
       (processNestedList []
          (mkList (Some true) (Some 5)
             [mkItem (js "a") None; mkItem (js " ") None;
              mkItem (js "c") None])
          0 [])
     = [Some (js "5. "); Some (js "7. ")].
Proof.
  split; vm_compute; reflexivity.
Qed.






(** An ordered parent: the child that repeats the marker ["3. "] is shown
    without it. *)
Example nested_marker_stripped :
  map blockTexts
    (processNestedList []
       (mkList (Some true) (Some 3)
          [mkItem (js "Step")
             (Some [ListTok
                      (mkList (Some false) None
                         [mkItem (js "3.  detail ") None;
                          mkItem (js "other") None])])])
       0 [])
  = [[Some (js "3. "); Some (js "Step")];
     [Some (js "• "); Some (js "detail")];
     [Some (js "• "); Some (js "other")]].
Proof. vm_compute. reflexivity. Qed.

(* ===================================================================== *)
(** * The block renderer, end to end *)
(* ===================================================================== *)

(** What [createWordDoc] returns depends on the text alone, whatever the
    file system, the options of [marked] and the earlier calls are: the
    tokenizer is called on the normalized text after [marked.use] has set
    the options. *)
Lemma createWordDoc_result (ext : Collaborators) (markdownContent : jsstring)
  (w : World ext) :
  fst (createWordDoc ext markdownContent w)
  = match marked_lexer ext (mkOptions true true)
            (preprocessMarkdown markdownContent) with
    | inl message => inl (Error message)
    | inr tokens => inr (Document.mk [renderTokens tokens])
    end.
Proof.
  unfold createWordDoc, bind, marked_use, lexer, lift, ret.
  cbn [markedOptions].
  destruct (marked_lexer ext (mkOptions true true)
              (preprocessMarkdown markdownContent)); reflexivity.
Qed.

Lemma createWordDoc_same_document (ext : Collaborators)
  (markdownContent : jsstring) (w1 w2 : World ext) :
  fst (createWordDoc ext markdownContent w1)
  = fst (createWordDoc ext markdownContent w2).
Proof. now rewrite !createWordDoc_result. Qed.

(** C1, as the code has it.  When the tokenizer reads
    ["# Title\n\nHello **world**.\n"] as a heading of depth 1 and a
    paragraph, the document has exactly three blocks: the spacer paragraph
    that a heading of depth 1 gets, the heading paragraph in the title style
    [h1], and a body paragraph whose second run is bold and reads
    ["world"]. *)
Theorem C1_title_and_paragraph (ext : Collaborators) (w : World ext) :
  marked_lexer ext (mkOptions true true) (js "# Title\n\nHello **world**.\n")
  = inr [Heading 1 (js "Title"); ParagraphTok (js "Hello **world**.")] ->
  fst (createWordDoc ext (js "# Title\n\nHello **world**.\n") w)
  = inr (Document.mk
      [[BParagraph
          (Paragraph.mk [] None
             (Some (Spacing.mk (Some (convertInchesToTwip (3 # 10)))
                      None None None))
             None None None);
        BParagraph
          (Paragraph.mk
             [TextRun.mk (Some (js "Title")) (Some (Style.font STYLES.h1))
                (Some (Style.size STYLES.h1)) (Some (js "000000"))
                None None None None]
             (Some HEADING_1)
             (Some (Spacing.mk (Some (convertInchesToTwip (5 # 10)))
                      (Some (convertInchesToTwip (3 # 10))) None None))
             None None None);
        BParagraph
          (Paragraph.mk
             [TextRun.mk (Some (js "Hello ")) (Some (js "仿宋_GB2312"))
                (Some 32%Z) (Some (js "000000"))
                (Some false) (Some false) (Some false) None;
              TextRun.mk (Some (js "world")) (Some (js "仿宋_GB2312"))
                (Some 32%Z) (Some (js "000000"))
                (Some true) (Some false) (Some false) None;
              TextRun.mk (Some (js ".")) (Some (js "仿宋_GB2312"))
                (Some 32%Z) (Some (js "000000"))
                (Some false) (Some false) (Some false) None]
             None
             (Some (Spacing.mk None None (Some 560%Z) (Some EXACT)))
             (Some BOTH)
             (Some (Indent.mk None None
                      (Some (convertInchesToTwip (29 # 100))) None))
             None)]]).
Proof.
  intros Hlexer.
  rewrite createWordDoc_result.
  change (preprocessMarkdown (js "# Title\n\nHello **world**.\n"))
    with (js "# Title\n\nHello **world**.\n").
  rewrite Hlexer.
  vm_compute. reflexivity.
Qed.

Lemma C1_title_and_paragraph_witness :
  match fst (createWordDoc sample (js "# Title\n\nHello **world**.\n")
               (sampleWorld [])) with
  | inr doc => map (map blockTexts) (Document.sections doc)
  | inl _ => []
  end
  = [[[]; [Some (js "Title")];
      [Some (js "Hello "); Some (js "world"); Some (js ".")]]].
Proof.
  rewrite (C1_title_and_paragraph sample (sampleWorld []) eq_refl).
  reflexivity.
Defined.

(** C1 as stated fails on the number of blocks: the heading of depth 1
    brings its spacer paragraph, so the document has three blocks, not
    two. *)
Lemma C1_three_blocks_counterexample :
  match fst (createWordDoc sample (js "# Title\n\nHello **world**.\n")
               (sampleWorld [])) with
  | inr doc => map (@List.length Block) (Document.sections doc)
  | inl _ => []
  end
  = [3%nat]
  /\ map blockTexts
       (renderTokens
          [Heading 1 (js "Title"); ParagraphTok (js "Hello **world**.")])
     = [[]; [Some (js "Title")];
        [Some (js "Hello "); Some (js "world"); Some (js ".")]].
Proof.
  split; vm_compute; reflexivity.
Qed.

(* ===================================================================== *)
(** * The tool handlers *)
(* ===================================================================== *)

(** A handler whose guard sees a falsy argument throws [InvalidParams] and
    leaves the world as it found it: the file system, the options of
    [marked] and the list of collaborator calls are unchanged. *)
Lemma handleMarkdownToWord_guard (ext : Collaborators)
  (args : MarkdownToWordArgs.t) (w : World ext) :
  falsy (MarkdownToWordArgs.markdownPath args)
  || falsy (MarkdownToWordArgs.outputPath args) = true ->
  handleMarkdownToWord ext args w
  = (inl (McpError InvalidParams (js "缺少必要的参数")), w).
Proof.
  intros Hguard. unfold handleMarkdownToWord. rewrite Hguard. reflexivity.
Qed.

Lemma handleWriteMarkdownToWord_guard (ext : Collaborators)
  (args : WriteMarkdownToWordArgs.t) (w : World ext) :
  falsy (WriteMarkdownToWordArgs.content args)
  || falsy (WriteMarkdownToWordArgs.outputPath args) = true ->
  handleWriteMarkdownToWord ext args w
  = (inl (McpError InvalidParams (js "缺少必要的参数")), w).
Proof.
  intros Hguard. unfold handleWriteMarkdownToWord. rewrite Hguard.
  reflexivity.
Qed.

(** On an arguments object that lacks one of the two properties, each
    handler throws an [McpError] of kind [InvalidParams] and returns the
    world unchanged: no collaborator was called (the trace is the one
    before the call), so no file was read, no markdown tokenized and no
    file written. *)
Lemma handlers_missing_property_invalid_params (ext : Collaborators)
  (w : World ext) :
  (forall args : MarkdownToWordArgs.t,
     MarkdownToWordArgs.markdownPath args = None
     \/ MarkdownToWordArgs.outputPath args = None ->
     handleMarkdownToWord ext args w
     = (inl (McpError InvalidParams (js "缺少必要的参数")), w))
  /\ (forall args : WriteMarkdownToWordArgs.t,
        WriteMarkdownToWordArgs.content args = None
        \/ WriteMarkdownToWordArgs.outputPath args = None ->
        handleWriteMarkdownToWord ext args w
        = (inl (McpError InvalidParams (js "缺少必要的参数")), w)).
Proof.
  split; intros args [Hmissing | Hmissing].
  - apply handleMarkdownToWord_guard. now rewrite Hmissing.
  - apply handleMarkdownToWord_guard. rewrite Hmissing. apply orb_true_r.
  - apply handleWriteMarkdownToWord_guard. now rewrite Hmissing.
  - apply handleWriteMarkdownToWord_guard. rewrite Hmissing.
    apply orb_true_r.
Qed.

Lemma handlers_missing_property_invalid_params_example :
  handleMarkdownToWord sample
    (MarkdownToWordArgs.mk None (Some (js "out.docx")))
    (sampleWorld [(js "a.md", inl (js "# Title"))])
  = (inl (McpError InvalidParams (js "缺少必要的参数")),
     sampleWorld [(js "a.md", inl (js "# Title"))])
  /\ handleWriteMarkdownToWord sample
       (WriteMarkdownToWordArgs.mk (Some (js "# Title")) None)
       (sampleWorld [])
     = (inl (McpError InvalidParams (js "缺少必要的参数")), sampleWorld []).
Proof.
  split.
  - apply (proj1 (handlers_missing_property_invalid_params sample _)).
    left. reflexivity.
  - apply (proj2 (handlers_missing_property_invalid_params sample _)).
    right. reflexivity.
Defined.

(** C8, where the code fails it.  A request for one of the two tools that
    carries no arguments object lacks both required arguments, and the
    call does not fail with [InvalidParams]: the handler throws the
    [TypeError] of its first property read, and the request handler turns
    it into an [McpError] of kind [InternalError].  The guard does what the
    claim says on an arguments object that lacks a property: the same
    request with an object that lacks the first property fails with
    [InvalidParams].  In all four cases no collaborator is called and the
    world is unchanged. *)
Theorem C8_no_arguments_object_internal_error (ext : Collaborators)
  (typeErrorMessage : jsstring -> jsstring) (w : World ext)
  (content outputPath : option jsstring) :
  handleMarkdownToWordCall ext typeErrorMessage None w
  = (inl (Error (typeErrorMessage (js "markdownPath"))), w)
  /\ handleWriteMarkdownToWordCall ext typeErrorMessage None w
     = (inl (Error (typeErrorMessage (js "content"))), w)
  /\ callTool ext typeErrorMessage (js "markdown_to_word") None w
     = (inl (McpError InternalError
               (js "处理文档时发生错误: "
                ++ typeErrorMessage (js "markdownPath"))), w)
  /\ callTool ext typeErrorMessage (js "write_markdown_to_word") None w
     = (inl (McpError InternalError
               (js "处理文档时发生错误: "
                ++ typeErrorMessage (js "content"))), w)
  /\ callTool ext typeErrorMessage (js "markdown_to_word")
       (Some (ToolArguments.mk None content outputPath)) w
     = (inl (McpError InvalidParams (js "缺少必要的参数")), w)
  /\ callTool ext typeErrorMessage (js "write_markdown_to_word")
       (Some (ToolArguments.mk None None outputPath)) w
     = (inl (McpError InvalidParams (js "缺少必要的参数")), w).
Proof.
  repeat (split; [reflexivity|]). reflexivity.
Qed.

(** C10, as the code has it.  An argument that is the empty string is
    treated as a missing one: each handler throws [InvalidParams] and
    leaves the world unchanged when its first or its second argument is
    [""].  In particular the content tool never converts the empty markdown
    text.  (The guard of the file tool tests the path: a source file that
    is empty is converted.) *)
Theorem C10_empty_argument_invalid_params (ext : Collaborators)
  (w : World ext) (other : option jsstring) :
  handleWriteMarkdownToWord ext (WriteMarkdownToWordArgs.mk (Some []) other) w
  = (inl (McpError InvalidParams (js "缺少必要的参数")), w)
  /\ handleWriteMarkdownToWord ext
       (WriteMarkdownToWordArgs.mk other (Some [])) w
     = (inl (McpError InvalidParams (js "缺少必要的参数")), w)
  /\ handleMarkdownToWord ext (MarkdownToWordArgs.mk (Some []) other) w
     = (inl (McpError InvalidParams (js "缺少必要的参数")), w)
  /\ handleMarkdownToWord ext (MarkdownToWordArgs.mk other (Some [])) w
     = (inl (McpError InvalidParams (js "缺少必要的参数")), w).
Proof.
  split; [| split; [| split]].
  - now apply handleWriteMarkdownToWord_guard.
  - apply handleWriteMarkdownToWord_guard. apply orb_true_r.
  - now apply handleMarkdownToWord_guard.
  - apply handleMarkdownToWord_guard. apply orb_true_r.
Qed.

(** C10 as stated fails in its last clause: through the file tool an empty
    markdown document is converted.  With a source file [empty.md] that
    holds the empty text, the handler succeeds, the tokenizer is called on
    [""], and a document with no block is written to [out.docx]. *)
Lemma C10_empty_file_counterexample :
  handleMarkdownToWord sample
    (MarkdownToWordArgs.mk (Some (js "empty.md")) (Some (js "out.docx")))
    (sampleWorld [(js "empty.md", inl [])])
  = (inr (js "成功将Markdown文件转换为Word文档: out.docx"),
     @mkWorld sample
       [(js "out.docx", inr (Document.mk [[]])); (js "empty.md", inl [])]
       (mkOptions true true)
       [EReadFile (js "empty.md"); EMarkedUse (mkOptions true true);
        ELexer []; EToBuffer (Document.mk [[]]); EMkdir (js ".");
        EWriteFile (js "out.docx")]).
Proof.
  vm_compute. reflexivity.
Qed.

(* ===================================================================== *)
(** * More on the inline run parser *)
(* ===================================================================== *)

(** The tests of one round read the text from [i] on. *)
Lemma charAt_view (content : jsstring) (i j : nat) :
  charAt content (i + j) = nth_error (skipn i content) j.
Proof. unfold charAt. now rewrite nth_error_skipn. Qed.

Lemma slice_view (content : jsstring) (i k : nat) :
  slice content i (i + k) = firstn k (skipn i content).
Proof. unfold slice. f_equal. lia. Qed.

Lemma round_view (content : jsstring) (i : nat) (st : InlineState) :
  round content i st
  = let s := skipn i content in
    if isChar (nth_error s 0) 96 then
      ((i + 1)%nat,
       mkInline (runs (addCurrentText st)) (currentText (addCurrentText st))
         (isStrong (addCurrentText st)) (isEm (addCurrentText st))
         (isDel (addCurrentText st)) (negb (isCode (addCurrentText st))))
    else if JS.eqb (firstn 3 s) (js "***") then
      ((i + 3)%nat,
       mkInline (runs (addCurrentText st)) (currentText (addCurrentText st))
         (negb (isStrong (addCurrentText st)))
         (negb (isEm (addCurrentText st)))
         (isDel (addCurrentText st)) (isCode (addCurrentText st)))
    else if JS.eqb (firstn 2 s) (js "**") then
      ((i + 2)%nat,
       mkInline (runs (addCurrentText st)) (currentText (addCurrentText st))
         (negb (isStrong (addCurrentText st))) (isEm (addCurrentText st))
         (isDel (addCurrentText st)) (isCode (addCurrentText st)))
    else if JS.eqb (firstn 2 s) (js "~~") then
      ((i + 2)%nat,
       mkInline (runs (addCurrentText st)) (currentText (addCurrentText st))
         (isStrong (addCurrentText st)) (isEm (addCurrentText st))
         (negb (isDel (addCurrentText st))) (isCode (addCurrentText st)))
    else if isChar (nth_error s 0) 42 && negb (isChar (nth_error s 1) 42) then
      ((i + 1)%nat,
       mkInline (runs (addCurrentText st)) (currentText (addCurrentText st))
         (isStrong (addCurrentText st)) (negb (isEm (addCurrentText st)))
         (isDel (addCurrentText st)) (isCode (addCurrentText st)))
    else
      ((i + 1)%nat,
       mkInline (runs st)
         (currentText st ++
            match nth_error s 0 with Some c => [c] | None => [] end)
         (isStrong st) (isEm st) (isDel st) (isCode st)).
Proof.
  unfold round.
  rewrite (charAt_view content i 1), !slice_view.
  pose proof (charAt_view content i 0) as H0.
  rewrite Nat.add_0_r in H0. rewrite !H0. reflexivity.
Qed.

(** The flags apart, a round either flushes the pending text or adds the
    character at [i] to it, and that character is no backtick and no
    star. *)
Lemma round_cases (content : jsstring) (i : nat) (st : InlineState) :
  (runs (snd (round content i st)) = runs (addCurrentText st)
   /\ currentText (snd (round content i st)) = currentText (addCurrentText st))
  \/ (runs (snd (round content i st)) = runs st
      /\ (currentText (snd (round content i st)) = currentText st
          \/ exists c : N,
               In c content /\ c <> 96 /\ c <> 42
               /\ currentText (snd (round content i st))
                  = currentText st ++ [c])).
Proof.
  rewrite round_view. cbv zeta.
  assert (Hin : forall c rest, skipn i content = c :: rest -> In c content).
  { intros c rest Hs. rewrite <- (firstn_skipn i content), Hs.
    apply in_or_app. right. now left. }
  destruct (skipn i content) as [|a s] eqn:Hs.
  - right. cbn. split; [reflexivity|]. left. now rewrite app_nil_r.
  - specialize (Hin a s eq_refl).
    cbn [nth_error isChar].
    destruct (N.eqb_spec a 96) as [->|Ha96]; [left; split; reflexivity|].
    destruct (JS.eqb (firstn 3 (a :: s)) (js "***"));
      [left; split; reflexivity|].
    destruct (JS.eqb (firstn 2 (a :: s)) (js "**")) eqn:Hbold;
      [left; split; reflexivity|].
    destruct (JS.eqb (firstn 2 (a :: s)) (js "~~"));
      [left; split; reflexivity|].
    destruct (N.eqb_spec a 42) as [->|Ha42].
    + destruct s as [|b s]; [left; split; reflexivity|].
      cbn [nth_error isChar andb].
      destruct (N.eqb_spec b 42) as [->|Hb42]; [| left; split; reflexivity].
      discriminate Hbold.
    + right. cbn [andb snd runs currentText]. split; [reflexivity|].
      right. exists a. repeat split; assumption.
Qed.

(** What every run of the parser is like, for the text [content]: its text
    is not empty and made of characters of [content] other than the
    backtick and the star, it is black, it carries the three flags, no
    break, and either the code style or the body style. *)
Definition inlineRunOf (content : jsstring) (r : TextRun.t) : Prop :=
  exists t : jsstring,
    TextRun.text r = Some t /\ t <> []
    /\ Forall (fun c => In c content /\ c <> 96 /\ c <> 42) t
    /\ TextRun.color r = Some (js "000000")
    /\ TextRun.break r = None
    /\ (exists strong em del : bool,
          TextRun.bold r = Some strong /\ TextRun.italics r = Some em
          /\ TextRun.strike r = Some del)
    /\ ((TextRun.font r = Some (js "Courier New")
         /\ TextRun.size r = Some 24%Z)
        \/ (TextRun.font r = Some (Style.font STYLES.normal)
            /\ TextRun.size r = Some (Style.size STYLES.normal))).

Definition inlineInv (content : jsstring) (st : InlineState) : Prop :=
  Forall (inlineRunOf content) (runs st)
  /\ Forall (fun c => In c content /\ c <> 96 /\ c <> 42) (currentText st).

Lemma addCurrentText_inv (content : jsstring) (st : InlineState) :
  inlineInv content st ->
  inlineInv content (addCurrentText st)
  /\ Forall (inlineRunOf content) (runs (addCurrentText st)).
Proof.
  intros [Hruns Htext]. unfold addCurrentText.
  destruct (currentText st) as [|c t] eqn:Hcur; cbn [truthy].
  - repeat split; try assumption. now rewrite Hcur.
  - assert (Hnew : Forall (inlineRunOf content)
                     (runs st ++
                        [TextRun.mk (Some (c :: t))
                           (Some (if isCode st then js "Courier New"
                                  else Style.font STYLES.normal))
                           (Some (if isCode st then 24%Z
                                  else Style.size STYLES.normal))
                           (Some (js "000000"))
                           (Some (isStrong st)) (Some (isEm st))
                           (Some (isDel st)) None])).
    { apply Forall_app. split; [assumption|].
      constructor; [| constructor].
      exists (c :: t). cbn.
      split; [reflexivity|]. split; [discriminate|].
      split; [assumption|]. split; [reflexivity|]. split; [reflexivity|].
      split; [now exists (isStrong st), (isEm st), (isDel st)|].
      destruct (isCode st); [left | right]; split; reflexivity. }
    split; [split|]; cbn; try assumption. constructor.
Qed.

Lemma round_inv (content : jsstring) (i : nat) (st : InlineState) :
  inlineInv content st -> inlineInv content (snd (round content i st)).
Proof.
  intros Hinv.
  destruct (addCurrentText_inv content st Hinv) as [[Hr Ht] _].
  destruct Hinv as [Hruns Htext]. unfold inlineInv in *.
  destruct (round_cases content i st)
    as [[-> ->] | [-> [-> | [c [Hin [H96 [H42 ->]]]]]]].
  - split; assumption.
  - split; assumption.
  - split; [assumption|].
    apply Forall_app. split; [assumption|]. now repeat constructor.
Qed.

Lemma scan_inv (content : jsstring) (fuel : nat) :
  forall (i : nat) (st : InlineState),
    inlineInv content st -> inlineInv content (scan fuel content i st).
Proof.
  induction fuel as [|fuel IH]; intros i st Hinv; cbn [scan]; [assumption|].
  destruct (i <? List.length content)%nat; [| assumption].
  pose proof (round_inv content i st Hinv) as Hround.
  destruct (round content i st) as [i' st']. now apply IH.
Qed.

Lemma parseInlineContent_inv (content : jsstring) :
  Forall (inlineRunOf content) (parseInlineContent content).
Proof.
  unfold parseInlineContent.
  apply addCurrentText_inv, scan_inv.
  split; constructor.
Qed.

(** X1.  The inline run parser gives no empty run: every run has a text
    that is not empty, is black, carries the bold, italics and strike
    flags, and is either in the code style (Courier New, 24) or in the body
    style. *)
Theorem parseInlineContent_no_empty_run (content : jsstring) (r : TextRun.t) :
  In r (parseInlineContent content) ->
  exists (t : jsstring) (strong em del : bool),
    t <> []
    /\ (r = TextRun.mk (Some t) (Some (js "Courier New")) (Some 24%Z)
              (Some (js "000000")) (Some strong) (Some em) (Some del) None
        \/ r = TextRun.mk (Some t) (Some (Style.font STYLES.normal))
                 (Some (Style.size STYLES.normal))
                 (Some (js "000000")) (Some strong) (Some em) (Some del)
                 None).
Proof.
  intros Hin.
  pose proof (proj1 (Forall_forall _ _) (parseInlineContent_inv content) r Hin)
    as [t [Ht [Hne [_ [Hcolor [Hbreak [[strong [em [del [Hb [Hi Hs]]]]]
                                         Hstyle]]]]]]].
  exists t, strong, em, del. split; [assumption|].
  destruct r as [text font size color bold italics strike brk].
  cbn in *. subst.
  destruct Hstyle as [[-> ->] | [-> ->]]; [left | right]; reflexivity.
Qed.

Lemma parseInlineContent_no_empty_run_witness :
  exists (t : jsstring) (strong em del : bool),
    t <> []
    /\ (TextRun.mk (Some (js "b")) (Some (js "仿宋_GB2312")) (Some 32%Z)
          (Some (js "000000")) (Some true) (Some false) (Some false) None
        = TextRun.mk (Some t) (Some (js "Courier New")) (Some 24%Z)
            (Some (js "000000")) (Some strong) (Some em) (Some del) None
        \/ TextRun.mk (Some (js "b")) (Some (js "仿宋_GB2312")) (Some 32%Z)
             (Some (js "000000")) (Some true) (Some false) (Some false) None
           = TextRun.mk (Some t) (Some (Style.font STYLES.normal))
               (Some (Style.size STYLES.normal))
               (Some (js "000000")) (Some strong) (Some em) (Some del)
               None).
Proof.
  apply (parseInlineContent_no_empty_run (js "a**b")).
  vm_compute. right. left. reflexivity.
Defined.

(** X2.  The markers never reach the document: every character of a run
    text is a character of the parsed text, and none is a backtick or a
    star. *)
Theorem parseInlineContent_drops_markers (content : jsstring)
  (r : TextRun.t) (t : jsstring) (c : N) :
  In r (parseInlineContent content) ->
  TextRun.text r = Some t ->
  In c t ->
  In c content /\ c <> 96 /\ c <> 42.
Proof.
  intros Hin Ht Hc.
  pose proof (proj1 (Forall_forall _ _) (parseInlineContent_inv content) r Hin)
    as [t' [Ht' [_ [Hchars _]]]].
  rewrite Ht in Ht'. injection Ht' as <-.
  exact (proj1 (Forall_forall _ _) Hchars c Hc).
Qed.

Lemma parseInlineContent_drops_markers_witness :
  In 98 (js "a*`b`*") /\ 98 <> 96 /\ 98 <> 42.
Proof.
  apply (parseInlineContent_drops_markers (js "a*`b`*")
           (TextRun.mk (Some (js "b")) (Some (js "Courier New")) (Some 24%Z)
              (Some (js "000000")) (Some false) (Some true) (Some false) None)
           (js "b") 98).
  - vm_compute. right. left. reflexivity.
  - reflexivity.
  - vm_compute. left. reflexivity.
Defined.

(** ** Plain text and wrapped text *)

(** A character that starts no marker: no backtick, no star, no tilde. *)
Definition plainChar (c : N) : Prop := c <> 96 /\ c <> 42 /\ c <> 126.

Definition appendText (t : jsstring) (st : InlineState) : InlineState :=
  mkInline (runs st) (currentText st ++ t)
    (isStrong st) (isEm st) (isDel st) (isCode st).

Definition toggleCode (st : InlineState) : InlineState :=
  mkInline (runs st) (currentText st)
    (isStrong st) (isEm st) (isDel st) (negb (isCode st)).

Definition toggleStrongEm (st : InlineState) : InlineState :=
  mkInline (runs st) (currentText st)
    (negb (isStrong st)) (negb (isEm st)) (isDel st) (isCode st).

Definition toggleStrong (st : InlineState) : InlineState :=
  mkInline (runs st) (currentText st)
    (negb (isStrong st)) (isEm st) (isDel st) (isCode st).

Definition toggleDel (st : InlineState) : InlineState :=
  mkInline (runs st) (currentText st)
    (isStrong st) (isEm st) (negb (isDel st)) (isCode st).

Definition toggleEm (st : InlineState) : InlineState :=
  mkInline (runs st) (currentText st)
    (isStrong st) (negb (isEm st)) (isDel st) (isCode st).

(** What follows a marker starts no marker: the end of the text, or a plain
    character. *)
Definition plainNext (rest : jsstring) : Prop :=
  match rest with
  | [] => True
  | c :: _ => plainChar c
  end.

Ltac round_at Hs :=
  rewrite round_view, Hs; cbv zeta;
  change (js "***") with [42; 42; 42];
  change (js "**") with [42; 42];
  change (js "~~") with [126; 126];
  cbn [app firstn nth_error isChar JS.eqb N.eqb Pos.eqb andb negb].

Lemma round_plain (content : jsstring) (i : nat) (st : InlineState)
  (c : N) (rest : jsstring) :
  skipn i content = c :: rest -> plainChar c ->
  round content i st = ((i + 1)%nat, appendText [c] st).
Proof.
  intros Hs (H96 & H42 & H126). round_at Hs.
  apply N.eqb_neq in H96, H42, H126.
  rewrite H96, H42, H126. reflexivity.
Qed.

Lemma round_code (content : jsstring) (i : nat) (st : InlineState)
  (rest : jsstring) :
  skipn i content = js "`" ++ rest -> plainNext rest ->
  round content i st
  = ((i + List.length (js "`"))%nat, toggleCode (addCurrentText st)).
Proof. intros Hs _. change (js "`") with [96] in Hs. now round_at Hs. Qed.

Lemma round_strong_em (content : jsstring) (i : nat) (st : InlineState)
  (rest : jsstring) :
  skipn i content = js "***" ++ rest -> plainNext rest ->
  round content i st
  = ((i + List.length (js "***"))%nat, toggleStrongEm (addCurrentText st)).
Proof.
  intros Hs _. change (js "***") with [42; 42; 42] in Hs. now round_at Hs.
Qed.

Lemma round_strong (content : jsstring) (i : nat) (st : InlineState)
  (rest : jsstring) :
  skipn i content = js "**" ++ rest -> plainNext rest ->
  round content i st
  = ((i + List.length (js "**"))%nat, toggleStrong (addCurrentText st)).
Proof.
  intros Hs Hnext. change (js "**") with [42; 42] in Hs.
  destruct rest as [|c rest]; [now round_at Hs|].
  destruct Hnext as (_ & H42 & _). round_at Hs.
  apply N.eqb_neq in H42. rewrite H42. reflexivity.
Qed.

Lemma round_del (content : jsstring) (i : nat) (st : InlineState)
  (rest : jsstring) :
  skipn i content = js "~~" ++ rest -> plainNext rest ->
  round content i st
  = ((i + List.length (js "~~"))%nat, toggleDel (addCurrentText st)).
Proof.
  intros Hs _. change (js "~~") with [126; 126] in Hs. now round_at Hs.
Qed.

Lemma round_em (content : jsstring) (i : nat) (st : InlineState)
  (rest : jsstring) :
  skipn i content = js "*" ++ rest -> plainNext rest ->
  round content i st
  = ((i + List.length (js "*"))%nat, toggleEm (addCurrentText st)).
Proof.
  intros Hs Hnext. change (js "*") with [42] in Hs.
  destruct rest as [|c rest]; [now round_at Hs|].
  destruct Hnext as (_ & H42 & _). round_at Hs.
  apply N.eqb_neq in H42. rewrite H42. reflexivity.
Qed.

Lemma scan_step (fuel : nat) (content : jsstring) (i : nat)
  (st : InlineState) :
  (i < List.length content)%nat ->
  scan (S fuel) content i st
  = scan fuel content (fst (round content i st)) (snd (round content i st)).
Proof.
  intros Hi. cbn [scan].
  destruct (Nat.ltb_spec i (List.length content)); [| lia].
  now destruct (round content i st).
Qed.

Lemma scan_done (fuel : nat) (content : jsstring) (i : nat)
  (st : InlineState) :
  (List.length content <= i)%nat -> scan fuel content i st = st.
Proof.
  intros Hi. destruct fuel; [reflexivity|]. cbn [scan].
  destruct (Nat.ltb_spec i (List.length content)); [lia | reflexivity].
Qed.

Lemma skipn_prefix (pre rest : jsstring) :
  skipn (List.length pre) (pre ++ rest) = rest.
Proof.
  rewrite skipn_app, Nat.sub_diag, skipn_all. reflexivity.
Qed.

(** A stretch of plain characters goes to the pending text, one character a
    round. *)
Lemma scan_plain (t : jsstring) :
  forall (pre post : jsstring) (st : InlineState) (fuel : nat),
    Forall plainChar t ->
    scan (List.length t + fuel) (pre ++ t ++ post) (List.length pre) st
    = scan fuel (pre ++ t ++ post) (List.length pre + List.length t)
        (appendText t st).
Proof.
  induction t as [|c t IH]; intros pre post st fuel Hplain.
  - cbn [List.length Nat.add]. rewrite Nat.add_0_r.
    unfold appendText. rewrite app_nil_r. now destruct st.
  - inversion Hplain as [|? ? Hc Ht]; subst.
    cbn [List.length Nat.add].
    rewrite scan_step by (rewrite !length_app; cbn; lia).
    rewrite (round_plain _ _ _ c (t ++ post)); [| apply skipn_prefix | easy].
    cbn [fst snd].
    assert (Hcontent : pre ++ (c :: t) ++ post = (pre ++ [c]) ++ t ++ post)
      by now rewrite <- app_assoc.
    assert (Hlen : (List.length pre + 1)%nat = List.length (pre ++ [c]))
      by (rewrite length_app; reflexivity).
    rewrite Hcontent, Hlen, IH by assumption.
    rewrite <- Hlen. f_equal; [lia|].
    unfold appendText. cbn. now rewrite <- app_assoc.
Qed.

(** X3.  A text with no backtick, no star and no tilde is one run in the
    body style with no flag set, holding the whole text; the empty text
    gives no run at all. *)
Theorem parseInlineContent_plain (t : jsstring) :
  Forall plainChar t ->
  parseInlineContent t
  = match t with
    | [] => []
    | _ :: _ =>
      [TextRun.mk (Some t) (Some (Style.font STYLES.normal))
         (Some (Style.size STYLES.normal)) (Some (js "000000"))
         (Some false) (Some false) (Some false) None]
    end.
Proof.
  intros Hplain. unfold parseInlineContent.
  pose proof (scan_plain t [] []
                (mkInline [] [] false false false false) 0 Hplain) as Hscan.
  cbn [app List.length Nat.add] in Hscan.
  rewrite app_nil_r, Nat.add_0_r in Hscan. rewrite Hscan.
  now destruct t.
Qed.

Lemma parseInlineContent_plain_witness :
  parseInlineContent (js "Hello, world")
  = [TextRun.mk (Some (js "Hello, world")) (Some (js "仿宋_GB2312"))
       (Some 32%Z) (Some (js "000000"))
       (Some false) (Some false) (Some false) None].
Proof.
  rewrite (parseInlineContent_plain (js "Hello, world"));
    [reflexivity | repeat constructor; discriminate].
Defined.

Lemma parse_wrapped (m : jsstring)
  (toggle : InlineState -> InlineState) :
  m <> [] ->
  (forall content i st rest,
     skipn i content = m ++ rest -> plainNext rest ->
     round content i st
     = ((i + List.length m)%nat, toggle (addCurrentText st))) ->
  forall t : jsstring,
    t <> [] -> Forall plainChar t ->
    parseInlineContent (m ++ t ++ m)
    = runs (addCurrentText
              (toggle
                 (addCurrentText
                    (appendText t
                       (toggle
                          (addCurrentText
                             (mkInline [] [] false false false false)))))))
    /\ parseInlineContent (m ++ t)
       = runs (addCurrentText
                 (appendText t
                    (toggle
                       (addCurrentText
                          (mkInline [] [] false false false false))))).
Proof.
  intros Hm Hround t Ht Hplain.
  assert (Hnext : forall post, plainNext (t ++ post)).
  { intros post. destruct t as [|c t]; [contradiction|].
    now inversion Hplain. }
  assert (Hlm : (1 <= List.length m)%nat)
    by (destruct m; [contradiction | cbn; lia]).
  split; unfold parseInlineContent.
  - replace (List.length (m ++ t ++ m))
      with (S (List.length t + S (2 * List.length m - 2)))
      by (rewrite !length_app; lia).
    rewrite scan_step by (rewrite !length_app; lia).
    rewrite (Hround _ 0%nat _ (t ++ m) eq_refl (Hnext m)). cbn [fst snd Nat.add].
    rewrite scan_plain by assumption.
    rewrite scan_step by (rewrite !length_app; lia).
    rewrite (Hround _ _ _ []);
      [| rewrite app_assoc, <- length_app, skipn_prefix;
         now rewrite app_nil_r
       | exact I].
    cbn [fst snd].
    rewrite scan_done by (rewrite !length_app; lia).
    reflexivity.
  - replace (List.length (m ++ t))
      with (S (List.length t + (List.length m - 1)))
      by (rewrite !length_app; lia).
    rewrite scan_step by (rewrite !length_app; lia).
    rewrite (Hround _ 0%nat _ t eq_refl);
      [| specialize (Hnext []); now rewrite app_nil_r in Hnext].
    cbn [fst snd Nat.add].
    pose proof (scan_plain t m []
                  (toggle (addCurrentText
                             (mkInline [] [] false false false false)))
                  (List.length m - 1) Hplain) as Hscan.
    rewrite app_nil_r in Hscan. rewrite Hscan.
    rewrite scan_done by (rewrite !length_app; lia).
    reflexivity.
Qed.

(** X4.  Plain text between two equal markers is one run with the flags of
    the marker: a backtick pair gives the code style, a star pair italics,
    a double star pair bold, a triple star pair bold and italics, a double
    tilde pair strike; nothing else is set and no marker is left in the
    text. *)
Theorem parseInlineContent_wrapped (t : jsstring) :
  t <> [] -> Forall plainChar t ->
  parseInlineContent (js "`" ++ t ++ js "`")
  = [TextRun.mk (Some t) (Some (js "Courier New")) (Some 24%Z)
       (Some (js "000000")) (Some false) (Some false) (Some false) None]
  /\ parseInlineContent (js "*" ++ t ++ js "*")
     = [TextRun.mk (Some t) (Some (Style.font STYLES.normal))
          (Some (Style.size STYLES.normal)) (Some (js "000000"))
          (Some false) (Some true) (Some false) None]
  /\ parseInlineContent (js "**" ++ t ++ js "**")
     = [TextRun.mk (Some t) (Some (Style.font STYLES.normal))
          (Some (Style.size STYLES.normal)) (Some (js "000000"))
          (Some true) (Some false) (Some false) None]
  /\ parseInlineContent (js "***" ++ t ++ js "***")
     = [TextRun.mk (Some t) (Some (Style.font STYLES.normal))
          (Some (Style.size STYLES.normal)) (Some (js "000000"))
          (Some true) (Some true) (Some false) None]
  /\ parseInlineContent (js "~~" ++ t ++ js "~~")
     = [TextRun.mk (Some t) (Some (Style.font STYLES.normal))
          (Some (Style.size STYLES.normal)) (Some (js "000000"))
          (Some false) (Some false) (Some true) None].
Proof.
  intros Ht Hplain.
  pose proof (proj1 (parse_wrapped (js "`") toggleCode ltac:(discriminate)
                       round_code t Ht Hplain)) as Hcode.
  pose proof (proj1 (parse_wrapped (js "*") toggleEm ltac:(discriminate)
                       round_em t Ht Hplain)) as Hem.
  pose proof (proj1 (parse_wrapped (js "**") toggleStrong ltac:(discriminate)
                       round_strong t Ht Hplain)) as Hstrong.
  pose proof (proj1 (parse_wrapped (js "***") toggleStrongEm
                       ltac:(discriminate) round_strong_em t Ht Hplain))
    as Hboth.
  pose proof (proj1 (parse_wrapped (js "~~") toggleDel ltac:(discriminate)
                       round_del t Ht Hplain)) as Hdel.
  destruct t as [|c t]; [contradiction|].
  repeat split; [rewrite Hcode | rewrite Hem | rewrite Hstrong
                 | rewrite Hboth | rewrite Hdel]; reflexivity.
Qed.

Lemma parseInlineContent_wrapped_witness :
  parseInlineContent (js "**" ++ js "very bold" ++ js "**")
  = [TextRun.mk (Some (js "very bold")) (Some (Style.font STYLES.normal))
       (Some (Style.size STYLES.normal)) (Some (js "000000"))
       (Some true) (Some false) (Some false) None].
Proof.
  apply (parseInlineContent_wrapped (js "very bold")).
  - discriminate.
  - repeat constructor; discriminate.
Defined.

(** X5.  A marker that is never closed stays on to the end of the text:
    plain text after one opening marker is one run with the flags of that
    marker. *)
Theorem parseInlineContent_unterminated (t : jsstring) :
  t <> [] -> Forall plainChar t ->
  parseInlineContent (js "`" ++ t)
  = [TextRun.mk (Some t) (Some (js "Courier New")) (Some 24%Z)
       (Some (js "000000")) (Some false) (Some false) (Some false) None]
  /\ parseInlineContent (js "*" ++ t)
     = [TextRun.mk (Some t) (Some (Style.font STYLES.normal))
          (Some (Style.size STYLES.normal)) (Some (js "000000"))
          (Some false) (Some true) (Some false) None]
  /\ parseInlineContent (js "**" ++ t)
     = [TextRun.mk (Some t) (Some (Style.font STYLES.normal))
          (Some (Style.size STYLES.normal)) (Some (js "000000"))
          (Some true) (Some false) (Some false) None]
  /\ parseInlineContent (js "***" ++ t)
     = [TextRun.mk (Some t) (Some (Style.font STYLES.normal))
          (Some (Style.size STYLES.normal)) (Some (js "000000"))
          (Some true) (Some true) (Some false) None]
  /\ parseInlineContent (js "~~" ++ t)
     = [TextRun.mk (Some t) (Some (Style.font STYLES.normal))
          (Some (Style.size STYLES.normal)) (Some (js "000000"))
          (Some false) (Some false) (Some true) None].
Proof.
  intros Ht Hplain.
  pose proof (proj2 (parse_wrapped (js "`") toggleCode ltac:(discriminate)
                       round_code t Ht Hplain)) as Hcode.
  pose proof (proj2 (parse_wrapped (js "*") toggleEm ltac:(discriminate)
                       round_em t Ht Hplain)) as Hem.
  pose proof (proj2 (parse_wrapped (js "**") toggleStrong ltac:(discriminate)
                       round_strong t Ht Hplain)) as Hstrong.
  pose proof (proj2 (parse_wrapped (js "***") toggleStrongEm
                       ltac:(discriminate) round_strong_em t Ht Hplain))
    as Hboth.
  pose proof (proj2 (parse_wrapped (js "~~") toggleDel ltac:(discriminate)
                       round_del t Ht Hplain)) as Hdel.
  destruct t as [|c t]; [contradiction|].
  repeat split; [rewrite Hcode | rewrite Hem | rewrite Hstrong
                 | rewrite Hboth | rewrite Hdel]; reflexivity.
Qed.

Lemma parseInlineContent_unterminated_witness :
  parseInlineContent (js "~~" ++ js "struck to the end")
  = [TextRun.mk (Some (js "struck to the end"))
       (Some (Style.font STYLES.normal))
       (Some (Style.size STYLES.normal)) (Some (js "000000"))
       (Some false) (Some false) (Some true) None].
Proof.
  apply (parseInlineContent_unterminated (js "struck to the end")).
  - discriminate.
  - repeat constructor; discriminate.
Defined.

(* ===================================================================== *)
(** * More on the nested-list normalizer *)
(* ===================================================================== *)

(** ** Lines *)

Lemma split_sep_free (sep : N) (s : jsstring) :
  Forall (fun line => ~ In sep line) (split sep s).
Proof.
  induction s as [|c r IH]; cbn [split].
  - constructor; [intros [] | constructor].
  - destruct (N.eqb_spec c sep) as [->|Hc].
    + constructor; [intros [] | assumption].
    + destruct (split sep r) as [|h t]; [repeat constructor; intros [H|[]];
                                          now apply Hc|].
      inversion IH as [|? ? Hh Ht]; subst.
      constructor; [| assumption].
      intros [H|H]; [now apply Hc | now apply Hh].
Qed.

Lemma split_app_sep (sep : N) (x rest : jsstring) :
  ~ In sep x -> split sep (x ++ sep :: rest) = x :: split sep rest.
Proof.
  induction x as [|c x IH]; intros Hx; cbn [app split].
  - now rewrite N.eqb_refl.
  - destruct (N.eqb_spec c sep) as [->|Hc]; [exfalso; apply Hx; now left|].
    rewrite IH; [reflexivity | intros H; apply Hx; now right].
Qed.

Lemma split_one_line (sep : N) (x : jsstring) :
  ~ In sep x -> split sep x = [x].
Proof.
  induction x as [|c x IH]; intros Hx; cbn [split]; [reflexivity|].
  destruct (N.eqb_spec c sep) as [->|Hc]; [exfalso; apply Hx; now left|].
  rewrite IH; [reflexivity | intros H; apply Hx; now right].
Qed.

(** Joining lines that hold no separator and splitting again gives the
    lines back. *)
Lemma split_join (sep : N) (lines : list jsstring) :
  lines <> [] ->
  Forall (fun line => ~ In sep line) lines ->
  split sep (join sep lines) = lines.
Proof.
  induction lines as [|x rest IH]; intros Hne Hfree; [contradiction|].
  inversion Hfree as [|? ? Hx Hrest]; subst.
  destruct rest as [|y rest].
  - cbn [join]. now apply split_one_line.
  - change (join sep (x :: y :: rest))
      with (x ++ sep :: join sep (y :: rest)).
    rewrite split_app_sep by assumption.
    rewrite IH; [reflexivity | discriminate | assumption].
Qed.

(** ** Trimmed text *)

Lemma dropWhile_head (p : N -> bool) (s : jsstring) (c : N) (r : jsstring) :
  dropWhile p s = c :: r -> p c = false.
Proof.
  induction s as [|a s IH]; cbn [dropWhile]; [discriminate|].
  destruct (p a) eqn:Hp; [assumption|].
  intros H. injection H as -> _. assumption.
Qed.

Lemma dropWhile_suffix (p : N -> bool) (s : jsstring) :
  exists dropped : jsstring, s = dropped ++ dropWhile p s.
Proof.
  induction s as [|a s [d IH]]; [now exists []|].
  cbn [dropWhile]. destruct (p a).
  - exists (a :: d). cbn. now rewrite <- IH.
  - now exists [].
Qed.

(** A trimmed text neither starts nor ends with a blank. *)
Lemma trim_ends (s : jsstring) :
  (forall c r, trim s = c :: r -> isWhiteSpace c = false)
  /\ (forall c r, rev (trim s) = c :: r -> isWhiteSpace c = false).
Proof.
  unfold trim, trimEnd, trimStart. split; intros c r H.
  - destruct (dropWhile_suffix isWhiteSpace (rev (dropWhile isWhiteSpace s)))
      as [d Hd].
    apply (f_equal (@rev N)) in Hd.
    rewrite rev_involutive, rev_app_distr, H in Hd.
    cbn in Hd. apply (dropWhile_head _ _ _ _ Hd).
  - rewrite rev_involutive in H. apply (dropWhile_head _ _ _ _ H).
Qed.

Lemma trimEnd_id (s : jsstring) :
  isWhiteSpace (last s 32) = false -> trimEnd s = s.
Proof.
  intros Hlast. unfold trimEnd.
  destruct s as [|a s] using rev_ind; [reflexivity|].
  rewrite last_last in Hlast.
  rewrite rev_app_distr. cbn [rev app dropWhile]. rewrite Hlast.
  cbn [rev]. now rewrite rev_involutive.
Qed.

Lemma rev_head_last (s : jsstring) (c : N) (r : jsstring) (d : N) :
  rev s = c :: r -> last s d = c.
Proof.
  intros H. apply (f_equal (@rev N)) in H.
  rewrite rev_involutive in H. subst s. cbn. apply last_last.
Qed.

(** ** The two patterns *)

(** What a repetition matched: some characters of the class, not none, and
    what follows it matched the rest. *)
Lemma matchPlus_sound {R : Type} (class : N -> bool) (s : jsstring) :
  forall (taken : jsstring) (k : jsstring -> jsstring -> option R) (r : R),
    matchPlus class s taken k = Some r ->
    exists t s' : jsstring,
      t <> [] /\ forallb class t = true /\ s = t ++ s'
      /\ k (taken ++ t) s' = Some r.
Proof.
  induction s as [|c s IH]; intros taken k r H; cbn [matchPlus] in H;
    [discriminate|].
  destruct (class c) eqn:Hc; [| discriminate].
  destruct (matchPlus class s (taken ++ [c]) k) as [r'|] eqn:Hrec.
  - injection H as ->.
    destruct (IH _ _ _ Hrec) as (t & s' & _ & Hall & -> & Hk).
    exists (c :: t), s'. rewrite <- app_assoc in Hk.
    repeat split; [discriminate | cbn; now rewrite Hc | assumption].
  - exists [c], s. repeat split; [discriminate | cbn; now rewrite Hc
                                  | assumption].
Qed.

(** The group [(.+)] at the end of a pattern takes all that is left, when
    that is not empty and holds no line terminator. *)
Lemma matchPlus_dot_end (s : jsstring) :
  forall (taken : jsstring) (groups : list jsstring),
    s <> [] -> forallb isDot s = true ->
    matchPlus isDot s taken (fun t s' => matchItems [] s' (groups ++ [t]))
    = Some (groups ++ [taken ++ s]).
Proof.
  induction s as [|c s IH]; intros taken groups Hne Hall; [contradiction|].
  cbn [forallb] in Hall. apply andb_prop in Hall as [Hc Hs].
  cbn [matchPlus]. rewrite Hc.
  destruct s as [|c' s].
  - cbn. reflexivity.
  - rewrite (IH (taken ++ [c]) groups ltac:(discriminate) Hs).
    now rewrite <- app_assoc.
Qed.

Lemma group_dot_end (s : jsstring) (groups : list jsstring) :
  s <> [] -> forallb isDot s = true ->
  matchItems [Group isDot] s groups = Some (groups ++ [s]).
Proof.
  intros Hne Hall. cbn [matchItems].
  exact (matchPlus_dot_end s [] groups Hne Hall).
Qed.

(** What a dash match is like: a dash, blanks, and the group. *)
Lemma nestedDashMatch_sound (s : jsstring) (groups : list jsstring) :
  nestedDashMatch s = Some groups ->
  exists ws g : jsstring,
    groups = [g] /\ s = 45 :: ws ++ g
    /\ ws <> [] /\ forallb isWhiteSpace ws = true
    /\ g <> [] /\ forallb isDot g = true.
Proof.
  unfold nestedDashMatch, nestedDashPattern. cbn [matchItems].
  destruct s as [|dash r]; [discriminate|].
  destruct (N.eqb_spec dash 45) as [->|]; [| discriminate].
  intros H.
  apply matchPlus_sound in H as (ws & s' & Hws & Hall & -> & H).
  apply matchPlus_sound in H as (g & s'' & Hg & Hdot & -> & H).
  destruct s''; [| discriminate]. injection H as <-.
  exists ws, g. rewrite app_nil_r. now repeat split.
Qed.

(** On a text that does not end with a blank, the group of a dash match
    does not start with a blank: the blanks after the dash are all in the
    repetition. *)
Lemma dash_blanks_greedy (r : jsstring) :
  forall (taken : jsstring) (groups : list jsstring),
    isWhiteSpace (last r 32) = false ->
    matchPlus isWhiteSpace r taken
      (fun _ s' => matchItems [Group isDot] s' []) = Some groups ->
    exists (c : N) (g : jsstring),
      groups = [c :: g] /\ isWhiteSpace c = false
      /\ forallb isDot (c :: g) = true
      /\ last (c :: g) 32 = last r 32.
Proof.
  induction r as [|a r IH]; intros taken groups Hlast H;
    cbn [matchPlus] in H; [discriminate|].
  destruct (isWhiteSpace a) eqn:Ha; [| discriminate].
  destruct (matchPlus isWhiteSpace r (taken ++ [a])
              (fun _ s' => matchItems [Group isDot] s' [])) as [r0|] eqn:Hrec.
  - injection H as ->.
    destruct r as [|b r]; [discriminate Hrec|].
    destruct (IH _ _ Hlast Hrec) as (c & g & -> & Hc & Hdot & Hl).
    exists c, g. repeat split; assumption.
  - cbn [matchItems] in H.
    apply matchPlus_sound in H as (g & s' & Hg & Hdot & -> & H).
    destruct s'; [| discriminate]. cbn in H. injection H as <-.
    rewrite app_nil_r in *.
    destruct g as [|c g]; [contradiction|].
    exists c, g. repeat split; try assumption.
    destruct (isWhiteSpace c) eqn:Hc; [| reflexivity].
    exfalso. cbn [matchPlus] in Hrec. rewrite Hc in Hrec.
    destruct g as [|c' g]; [cbn in Hlast; congruence|].
    cbn [forallb] in Hdot. apply andb_prop in Hdot as [_ Hdot].
    rewrite (group_dot_end (c' :: g) [] ltac:(discriminate) Hdot) in Hrec.
    destruct (matchPlus isWhiteSpace (c' :: g) ((taken ++ [a]) ++ [c])
                (fun _ s' => matchItems [Group isDot] s' []));
      discriminate.
Qed.

Lemma nestedDashMatch_trimmed (s : jsstring) (groups : list jsstring) :
  isWhiteSpace (last s 32) = false ->
  nestedDashMatch s = Some groups ->
  exists (c : N) (g : jsstring),
    groups = [c :: g] /\ isWhiteSpace c = false
    /\ forallb isDot (c :: g) = true
    /\ isWhiteSpace (last (c :: g) 32) = false.
Proof.
  unfold nestedDashMatch, nestedDashPattern. cbn [matchItems].
  destruct s as [|dash r]; [discriminate|].
  destruct (N.eqb_spec dash 45) as [->|]; [| discriminate].
  intros Hlast H.
  destruct r as [|a r]; [discriminate H|].
  change (last (45 :: a :: r) 32) with (last (a :: r) 32) in Hlast.
  destruct (dash_blanks_greedy _ _ _ Hlast H) as (c & g & -> & Hc & Hdot & Hl).
  exists c, g. rewrite Hl. repeat split; assumption.
Qed.

(** The line the normalizer writes for a dash line is read by a second run
    as the same dash line. *)
Lemma dash_line_again (c : N) (g : jsstring) :
  isWhiteSpace c = false ->
  forallb isDot (c :: g) = true ->
  isWhiteSpace (last (c :: g) 32) = false ->
  trim (js "   - " ++ c :: g) = js "- " ++ c :: g
  /\ mainListMatch (js "- " ++ c :: g) = None
  /\ nestedDashMatch (js "- " ++ c :: g) = Some [c :: g].
Proof.
  intros Hc Hdot Hlast. split; [| split].
  - unfold trim.
    change (trimStart (js "   - " ++ c :: g)) with (js "- " ++ c :: g).
    apply trimEnd_id. exact Hlast.
  - reflexivity.
  - unfold nestedDashMatch, nestedDashPattern.
    change (js "- " ++ c :: g) with (45 :: 32 :: c :: g).
    cbn [matchItems N.eqb Pos.eqb matchPlus].
    change (isWhiteSpace 32) with true. cbn iota. rewrite Hc.
    apply (group_dot_end (c :: g) []); [discriminate | assumption].
Qed.

(** ** Line by line *)

(** What the normalizer makes of one line: the line itself, or, for a dash
    line that is no main item, three blanks, a dash, a blank and the text
    of the dash line. *)
Definition lineOut (line line' : jsstring) : Prop :=
  line' = line
  \/ (mainListMatch (trim line) = None
      /\ exists g : jsstring,
           nestedDashMatch (trim line) = Some [g]
           /\ line' = js "   - " ++ g).

Lemma dash_match_last (line : jsstring) (groups : list jsstring) :
  nestedDashMatch (trim line) = Some groups ->
  isWhiteSpace (last (trim line) 32) = false.
Proof.
  intros H. destruct (rev (trim line)) as [|c r] eqn:Hrev.
  - apply (f_equal (@rev N)) in Hrev. rewrite rev_involutive in Hrev.
    rewrite Hrev in H. discriminate H.
  - rewrite (rev_head_last _ _ _ 32 Hrev).
    exact (proj2 (trim_ends line) c r Hrev).
Qed.

(** One round of the loop pushes one line, and a second run of the loop,
    in the same state, reads the pushed line as the first run read the
    line: it pushes it unchanged and ends in the same state. *)
Lemma preprocessLine_shape (st : PreState) (line : jsstring) :
  exists line' : jsstring,
    resultLines (preprocessLine st line) = resultLines st ++ [line']
    /\ lineOut line line'
    /\ forall again : list jsstring,
         preprocessLine
           (mkPre again (currentMainListItem st) (processingNestedList st))
           line'
         = mkPre (again ++ [line'])
             (currentMainListItem (preprocessLine st line))
             (processingNestedList (preprocessLine st line)).
Proof.
  unfold preprocessLine at 1 3 4.
  destruct (mainListMatch (trim line)) as [groups|] eqn:Hmain.
  - exists line. split; [reflexivity|]. split; [now left|].
    intros again. unfold preprocessLine. now rewrite Hmain.
  - destruct (nestedDashMatch (trim line)) as [groups|] eqn:Hdash.
    + destruct (currentMainListItem st) as [n|] eqn:Hcur.
      * destruct (nestedDashMatch_trimmed _ _ (dash_match_last _ _ Hdash)
                    Hdash) as (c & g & -> & Hc & Hdot & Hlast).
        destruct (dash_line_again c g Hc Hdot Hlast)
          as (Htrim & Hmain' & Hdash').
        exists (js "   - " ++ c :: g).
        split; [reflexivity|]. split.
        { right. split; [assumption|]. now exists (c :: g). }
        intros again. unfold preprocessLine.
        rewrite Htrim, Hmain', Hdash'. reflexivity.
      * exists line. split; [reflexivity|]. split; [now left|].
        intros again. unfold preprocessLine.
        now rewrite Hmain, Hdash.
    + exists line. split; [reflexivity|]. split; [now left|].
      intros again. unfold preprocessLine.
      rewrite Hmain, Hdash. now destruct (currentMainListItem st).
Qed.

Lemma preprocess_lines_shape (lines : list jsstring) :
  forall st : PreState,
    exists lines' : list jsstring,
      resultLines (fold_left preprocessLine lines st)
      = resultLines st ++ lines'
      /\ Forall2 lineOut lines lines'
      /\ forall again : list jsstring,
           fold_left preprocessLine lines'
             (mkPre again (currentMainListItem st)
                (processingNestedList st))
           = mkPre (again ++ lines')
               (currentMainListItem (fold_left preprocessLine lines st))
               (processingNestedList (fold_left preprocessLine lines st)).
Proof.
  induction lines as [|line rest IH]; intros st.
  - exists []. cbn. split; [now rewrite app_nil_r|].
    split; [constructor|]. intros again. now rewrite app_nil_r.
  - destruct (preprocessLine_shape st line) as (line' & Hres & Hout & Hagain).
    destruct (IH (preprocessLine st line)) as (rest' & Hres' & Hout' & Hagain').
    exists (line' :: rest'). cbn [fold_left].
    split; [rewrite Hres', Hres, <- app_assoc; reflexivity|].
    split; [now constructor|].
    intros again. rewrite Hagain, Hagain', <- app_assoc. reflexivity.
Qed.

Lemma lineOut_sep_free (line line' : jsstring) :
  lineOut line line' -> ~ In 10 line -> ~ In 10 line'.
Proof.
  intros [-> | (_ & g & Hdash & ->)] Hfree; [assumption|].
  apply nestedDashMatch_sound in Hdash
    as (ws & g' & Hg & _ & _ & _ & _ & Hdot).
  injection Hg as <-.
  intros Hin. apply in_app_or in Hin as [Hin | Hin].
  - vm_compute in Hin. repeat (destruct Hin as [Hin | Hin]; [discriminate|]).
    exact Hin.
  - rewrite forallb_forall in Hdot. specialize (Hdot 10 Hin).
    discriminate Hdot.
Qed.

Lemma linesOut_sep_free (lines lines' : list jsstring) :
  Forall2 lineOut lines lines' ->
  Forall (fun line => ~ In 10 line) lines ->
  Forall (fun line => ~ In 10 line) lines'.
Proof.
  induction 1 as [|line line' rest rest' Hl _ IH]; intros Hfree;
    [constructor|].
  inversion Hfree; subst.
  constructor; [now apply (lineOut_sep_free line) | now apply IH].
Qed.

(** The lines the normalizer writes, for a text: as many as it read, each
    the line it read or its rewritten form, and none holds a line feed. *)
Lemma preprocessMarkdown_result (markdown : jsstring) :
  exists lines' : list jsstring,
    preprocessMarkdown markdown = join 10 lines'
    /\ split 10 (preprocessMarkdown markdown) = lines'
    /\ Forall2 lineOut (split 10 markdown) lines'
    /\ fold_left preprocessLine lines' (mkPre [] None false)
       = mkPre lines'
           (currentMainListItem
              (fold_left preprocessLine (split 10 markdown)
                 (mkPre [] None false)))
           (processingNestedList
              (fold_left preprocessLine (split 10 markdown)
                 (mkPre [] None false))).
Proof.
  destruct (preprocess_lines_shape (split 10 markdown) (mkPre [] None false))
    as (lines' & Hres & Hout & Hagain).
  exists lines'. unfold preprocessMarkdown. rewrite Hres. cbn [resultLines app].
  split; [reflexivity|]. split; [| split; [assumption | apply Hagain]].
  apply split_join.
  - pose proof (split_not_nil 10 markdown) as Hne.
    destruct Hout; [contradiction | discriminate].
  - apply (linesOut_sep_free (split 10 markdown)); [assumption|].
    apply split_sep_free.
Qed.

(** X6.  The normalizer works line by line: its output has as many lines
    as its input, and each output line is the input line unchanged or, for
    a line that reads as a dash line and not as a main item, the line
    rewritten as three blanks, a dash, a blank and the text that follows
    the dash. *)
Theorem preprocessMarkdown_line_by_line (markdown : jsstring) :
  Forall2 lineOut (split 10 markdown) (split 10 (preprocessMarkdown markdown)).
Proof.
  destruct (preprocessMarkdown_result markdown) as (lines' & _ & -> & H & _).
  exact H.
Qed.

Lemma preprocessMarkdown_twice (markdown : jsstring) :
  preprocessMarkdown (preprocessMarkdown markdown)
  = preprocessMarkdown markdown.
Proof.
  destruct (preprocessMarkdown_result markdown)
    as (lines' & Hjoin & Hsplit & _ & Hagain).
  unfold preprocessMarkdown at 1. rewrite Hsplit, Hagain.
  cbn [resultLines]. symmetry. exact Hjoin.
Qed.

(** X7.  The normalizer is idempotent on every text: running it on its own
    output changes nothing. *)
Theorem preprocessMarkdown_idempotent (markdown : jsstring) :
  preprocessMarkdown (preprocessMarkdown markdown)
  = preprocessMarkdown markdown.
Proof. exact (preprocessMarkdown_twice markdown). Qed.

(** ** The active item number is never cleared *)

Lemma currentMainListItem_sticky (st : PreState) (line : jsstring) :
  currentMainListItem st <> None \/ mainListMatch (trim line) <> None ->
  currentMainListItem (preprocessLine st line) <> None.
Proof.
  unfold preprocessLine. intros H.
  destruct (mainListMatch (trim line)); [discriminate|].
  destruct H as [H | H]; [| contradiction].
  destruct (nestedDashMatch (trim line)), (currentMainListItem st);
    try discriminate; contradiction.
Qed.

Lemma currentMainListItem_sticky_lines (lines : list jsstring) :
  forall st : PreState,
    currentMainListItem st <> None ->
    currentMainListItem (fold_left preprocessLine lines st) <> None.
Proof.
  induction lines as [|line rest IH]; intros st H; [assumption|].
  cbn [fold_left]. apply IH, currentMainListItem_sticky. now left.
Qed.

Lemma preprocess_lines_length (lines : list jsstring) (st : PreState) :
  exists lines' : list jsstring,
    resultLines (fold_left preprocessLine lines st) = resultLines st ++ lines'
    /\ List.length lines' = List.length lines.
Proof.
  destruct (preprocess_lines_shape lines st) as (lines' & Hres & Hout & _).
  exists lines'. split; [assumption|].
  symmetry. exact (Forall2_length Hout).
Qed.

Lemma preprocessMarkdown_lines (lines : list jsstring) :
  lines <> [] ->
  Forall (fun line => ~ In 10 line) lines ->
  split 10 (preprocessMarkdown (join 10 lines))
  = resultLines (fold_left preprocessLine lines (mkPre [] None false)).
Proof.
  intros Hne Hfree.
  unfold preprocessMarkdown.
  rewrite (split_join 10 lines Hne Hfree).
  destruct (preprocess_lines_shape lines (mkPre [] None false))
    as (lines' & Hres & Hout & _).
  rewrite Hres. cbn [resultLines app].
  apply split_join.
  - destruct Hout; [contradiction | discriminate].
  - now apply (linesOut_sep_free lines).
Qed.

(** X8.  Once a main item has been read, every later dash line is
    rewritten, whatever lies between the two: neither a blank line nor
    other text ends the rewriting.  In a text made of the lines [pre], a
    main item, the lines [mid], a dash line and the lines [post], the
    output line at the place of the dash line is three blanks, a dash, a
    blank and the text of the dash line. *)
Theorem preprocessMarkdown_dash_after_main (pre mid post : list jsstring)
  (main dash g : jsstring) :
  Forall (fun line => ~ In 10 line) (pre ++ main :: mid ++ dash :: post) ->
  mainListMatch (trim main) <> None ->
  mainListMatch (trim dash) = None ->
  nestedDashMatch (trim dash) = Some [g] ->
  nth_error
    (split 10
       (preprocessMarkdown (join 10 (pre ++ main :: mid ++ dash :: post))))
    (List.length pre + S (List.length mid))
  = Some (js "   - " ++ g).
Proof.
  intros Hfree Hmain Hnomain Hdash.
  rewrite preprocessMarkdown_lines;
    [| now destruct pre | assumption].
  change (pre ++ main :: mid ++ dash :: post)
    with (pre ++ (main :: mid) ++ dash :: post).
  rewrite app_assoc, fold_left_app. cbn [fold_left].
  set (st := fold_left preprocessLine (pre ++ main :: mid)
               (mkPre [] None false)).
  assert (Hcur : currentMainListItem st <> None).
  { subst st. rewrite fold_left_app. cbn [fold_left].
    apply currentMainListItem_sticky_lines, currentMainListItem_sticky.
    now right. }
  destruct (preprocess_lines_length (pre ++ main :: mid)
              (mkPre [] None false)) as (before & Hbefore & Hlen).
  fold st in Hbefore. cbn [resultLines app] in Hbefore.
  destruct (preprocess_lines_length post (preprocessLine st dash))
    as (after & Hafter & _).
  rewrite Hafter.
  assert (Hline : resultLines (preprocessLine st dash)
                  = before ++ [js "   - " ++ g]).
  { unfold preprocessLine. rewrite Hnomain, Hdash.
    destruct (currentMainListItem st); [| contradiction].
    cbn [resultLines]. now rewrite Hbefore. }
  rewrite Hline, <- app_assoc.
  rewrite nth_error_app2 by (rewrite Hlen, length_app; cbn; lia).
  replace (List.length pre + S (List.length mid) - List.length before)%nat
    with 0%nat by (rewrite Hlen, length_app; cbn; lia).
  reflexivity.
Qed.

Lemma preprocessMarkdown_dash_after_main_witness :
  nth_error
    (split 10
       (preprocessMarkdown
          (join 10
             ([js "Intro"] ++ js "1. **Step**"
                :: [js ""; js "Some text."; js ""] ++ js "- far away"
                :: [js "end"]))))
    (List.length [js "Intro"]
     + S (List.length [js ""; js "Some text."; js ""]))
  = Some (js "   - " ++ js "far away").
Proof.
  apply preprocessMarkdown_dash_after_main.
  - repeat constructor; vm_compute;
      intros H; repeat (destruct H as [H | H]; [discriminate|]); exact H.
  - vm_compute. discriminate.
  - vm_compute. reflexivity.
  - vm_compute. reflexivity.
Defined.

(* ===================================================================== *)
(** * More on the list renderer *)
(* ===================================================================== *)

Lemma processItems_index (level : nat) (parentBullet : jsstring)
  (ordered : bool) (items : list ListItem) :
  forall (children : list Block) (index : N),
    snd (fold_left (processItem level parentBullet ordered) items
           (children, index))
    = if ordered then index + N.of_nat (List.length items) else index.
Proof.
  induction items as [|[text tokens] rest IH]; intros children index.
  - cbn. destruct ordered; [lia | reflexivity].
  - cbn [fold_left]. unfold processItem at 2. rewrite IH.
    destruct ordered; [| reflexivity].
    cbn [List.length]. lia.
Qed.

(** X9.  Numbering goes by position.  Rendering a list is rendering its
    first items and then the rest as a list of its own: for an ordered list
    the rest starts at the start value plus the number of items before it,
    whether those items were shown or blank.  The index of the source is a
    double, which counts exactly up to 2^53: the statement is for the lists
    in which no ordered list, the nested ones included, counts past that
    bound ([indexExact]), where the index of the model is the index of the
    program. *)
Theorem processNestedList_items_app (children : list Block) (ordered : bool)
  (start : N) (items rest : list ListItem) (level : nat)
  (parentBullet : jsstring) :
  indexExact (mkList (Some ordered) (Some start) (items ++ rest)) = true ->
  processNestedList children
    (mkList (Some ordered) (Some start) (items ++ rest)) level parentBullet
  = processNestedList
      (processNestedList children
         (mkList (Some ordered) (Some start) items) level parentBullet)
      (mkList (Some ordered)
         (Some (if ordered then start + N.of_nat (List.length items)
                else start))
         rest)
      level parentBullet.
Proof.
  intros _.
  rewrite !processNestedList_eq, fold_left_app.
  rewrite <- (processItems_index level parentBullet ordered items children
                start).
  now rewrite <- surjective_pairing.
Qed.

Lemma processNestedList_items_app_witness :
  processNestedList []
    (mkList (Some true) (Some 3)
       ([mkItem (js "three") None; mkItem (js " ") None]
        ++ [mkItem (js "five") None]))
    0 []
  = processNestedList
      (processNestedList []
         (mkList (Some true) (Some 3)
            [mkItem (js "three") None; mkItem (js " ") None])
         0 [])
      (mkList (Some true)
         (Some (if true
                then 3 + N.of_nat
                           (List.length
                              [mkItem (js "three") None; mkItem (js " ") None])
                else 3))
         [mkItem (js "five") None])
      0 [].
Proof.
  apply (processNestedList_items_app [] true 3
           [mkItem (js "three") None; mkItem (js " ") None]
           [mkItem (js "five") None] 0 []).
  reflexivity.
Defined.

(** An item that is shown and has no list among its tokens. *)
Definition flatShownItem (item : ListItem) : Prop :=
  match item with
  | mkItem text tokens =>
    truthy (trim text) = true
    /\ match tokens with
       | None => True
       | Some subTokens =>
         Forall (fun subToken => match subToken with
                                 | ListTok _ => False
                                 | _ => True
                                 end) subTokens
       end
  end.

Lemma renderSubTokens_no_list (children : list Block)
  (subTokens : list MarkedToken) (level : nat) (currentBullet : jsstring) :
  Forall (fun subToken => match subToken with
                          | ListTok _ => False
                          | _ => True
                          end) subTokens ->
  renderSubTokens children (Some subTokens) level currentBullet = children.
Proof.
  induction 1 as [|subToken more Hsub _ IH]; [reflexivity|].
  rewrite renderSubTokens_cons. now destruct subToken.
Qed.

Lemma flat_items_markers (level : nat) (parentBullet : jsstring)
  (ordered : bool) (items : list ListItem) :
  Forall flatShownItem items ->
  forall (children : list Block) (index : N),
    map blockMarker
      (fst (fold_left (processItem level parentBullet ordered) items
              (children, index)))
    = map blockMarker children
      ++ map (fun k => Some (if ordered
                             then Number_toString (index + N.of_nat k)
                                  ++ js ". "
                             else js "• "))
           (seq 0 (List.length items)).
Proof.
  induction 1 as [|[text tokens] rest [Hshown Hflat] _ IH];
    intros children index.
  - cbn. now rewrite app_nil_r.
  - cbn [fold_left]. unfold processItem at 2. rewrite Hshown.
    assert (Hsub : forall c bullet,
               renderSubTokens c tokens level bullet = c).
    { intros c bullet. destruct tokens as [subTokens|]; [| reflexivity].
      now apply renderSubTokens_no_list. }
    rewrite Hsub, IH, map_app. cbn [List.length seq map].
    rewrite createListItemParagraph_marker, <- app_assoc. cbn [app].
    rewrite <- seq_shift, map_map.
    f_equal. f_equal.
    + destruct ordered; [| reflexivity].
      cbn [indexText]. now rewrite N.add_0_r.
    + apply map_ext. intros k. destruct ordered; [| reflexivity].
      do 3 f_equal. lia.
Qed.

(** X10.  The markers of a list with no blank item and no nested list, of
    any length: an ordered list that starts at [start] is marked
    ["<start>. "], ["<start+1>. "], ... in order, and every item of an
    unordered list is marked ["• "].  The index of the source is a double,
    which counts exactly up to 2^53: the statement is for ordered lists
    whose last index does not pass that bound. *)
Theorem processNestedList_flat_markers (ordered : bool) (start : N)
  (items : list ListItem) (level : nat) (parentBullet : jsstring) :
  (ordered = true -> start + N.of_nat (List.length items) <= 2 ^ 53) ->
  Forall flatShownItem items ->
  map blockMarker
    (processNestedList [] (mkList (Some ordered) (Some start) items)
       level parentBullet)
  = map (fun k => Some (if ordered
                        then Number_toString (start + N.of_nat k) ++ js ". "
                        else js "• "))
      (seq 0 (List.length items)).
Proof.
  intros _ Hitems. rewrite processNestedList_eq.
  exact (flat_items_markers level parentBullet ordered items Hitems [] start).
Qed.

Lemma processNestedList_flat_markers_witness :
  map blockMarker
    (processNestedList []
       (mkList (Some true) (Some 9)
          [mkItem (js "nine") None; mkItem (js "ten") (Some []);
           mkItem (js "eleven") (Some [ParagraphTok (js "eleven")])])
       2 (js "1. "))
  = [Some (js "9. "); Some (js "10. "); Some (js "11. ")].
Proof.
  rewrite processNestedList_flat_markers; [reflexivity | |].
  - intros _. vm_compute. discriminate.
  - repeat constructor.
Defined.

(** A block the list renderer pushes for a list at depth [level]: a list
    item paragraph at that depth or deeper, whose index is there exactly
    when the list is ordered. *)
Definition listItemBlock (level : nat) (b : Block) : Prop :=
  exists (text : jsstring) (depth : nat) (ordered : bool) (index : N),
    (level <= depth)%nat
    /\ b = BParagraph
             (createListItemParagraph text depth ordered
                (if ordered then Some index else None)).

Lemma listItemBlock_deeper (level : nat) (b : Block) :
  listItemBlock (S level) b -> listItemBlock level b.
Proof.
  intros (text & depth & ordered & index & Hle & ->).
  exists text, depth, ordered, index. split; [lia | reflexivity].
Qed.

Lemma renderSubTokens_listItemBlocks (subTokens : list MarkedToken) :
  Forall (fun subToken =>
            match subToken with
            | ListTok sub =>
              forall level parentBullet,
                Forall (listItemBlock level)
                  (processNestedList [] sub level parentBullet)
            | _ => True
            end) subTokens ->
  forall children level currentBullet,
    Forall (listItemBlock level) children ->
    Forall (listItemBlock level)
      (renderSubTokens children (Some subTokens) level currentBullet).
Proof.
  induction 1 as [|subToken more Hsub _ IH];
    intros children level bullet Hchildren; [assumption|].
  rewrite renderSubTokens_cons.
  destruct subToken; try now apply IH.
  apply IH. rewrite processNestedList_pushes.
  apply Forall_app. split; [assumption|].
  eapply Forall_impl; [apply listItemBlock_deeper | apply Hsub].
Qed.

(** X11.  Every block the list renderer pushes is a list item paragraph:
    never a table, its first run is the marker, it is indented for the
    depth of the list or deeper, and an ordered item always has its
    number. *)
Theorem processNestedList_listItemBlocks (listToken : ListToken) :
  forall (level : nat) (parentBullet : jsstring),
    Forall (listItemBlock level)
      (processNestedList [] listToken level parentBullet).
Proof.
  induction listToken as [ordered start items Hitems]
    using ListToken_nested_ind.
  intros level parentBullet. rewrite processNestedList_eq.
  generalize (match start with Some n => n | None => 1 end) as index.
  assert (Hnil : Forall (listItemBlock level) []) by constructor.
  revert Hnil. generalize (@nil Block) as children.
  induction Hitems as [|[text tokens] rest Hitem _ IH];
    intros children Hchildren index; [assumption|].
  cbn [fold_left]. unfold processItem at 2. apply IH.
  set (ordered' := match ordered with Some b => b | None => false end).
  assert (Hown : Forall (listItemBlock level)
                   (if truthy (trim text)
                    then children ++
                           [BParagraph
                              (createListItemParagraph
                                 (displayTextOf level parentBullet text)
                                 level ordered'
                                 (if ordered' then Some index else None))]
                    else children)).
  { destruct (truthy (trim text)); [| assumption].
    apply Forall_app. split; [assumption|].
    constructor; [| constructor].
    exists (displayTextOf level parentBullet text), level, ordered', index.
    split; [lia | reflexivity]. }
  destruct tokens as [subTokens|]; [| exact Hown].
  apply renderSubTokens_listItemBlocks; assumption.
Qed.

(* ===================================================================== *)
(** * More on the block renderer *)
(* ===================================================================== *)

Lemma blockquote_pushes (quotes : list MarkedToken) :
  forall children : list Block,
    fold_left
      (fun children quote =>
         match quote with
         | ParagraphTok text =>
           children ++ [BParagraph (createBlockquoteParagraph text)]
         | _ => children
         end)
      quotes children
    = children
      ++ flat_map (fun quote =>
                     match quote with
                     | ParagraphTok text =>
                       [BParagraph (createBlockquoteParagraph text)]
                     | _ => []
                     end) quotes.
Proof.
  induction quotes as [|quote rest IH]; intros children; cbn [fold_left].
  - cbn. now rewrite app_nil_r.
  - rewrite IH. cbn [flat_map].
    destruct quote; cbn [app]; try reflexivity.
    now rewrite <- app_assoc.
Qed.

Lemma renderToken_pushes (children : list Block) (token : MarkedToken) :
  renderToken children token = children ++ renderToken [] token.
Proof.
  destruct token as [depth text | text | text | header rows | listToken
                    | [quotes|] | | type]; cbn [renderToken].
  - destruct (depth =? 1)%Z; [| destruct (depth =? 2)%Z];
      now rewrite <- ?app_assoc.
  - reflexivity.
  - reflexivity.
  - reflexivity.
  - apply processNestedList_pushes.
  - now rewrite !blockquote_pushes.
  - now rewrite app_nil_r.
  - reflexivity.
  - now rewrite app_nil_r.
Qed.

Lemma renderTokens_from (tokens : list MarkedToken) :
  forall children : list Block,
    fold_left renderToken tokens children = children ++ renderTokens tokens.
Proof.
  unfold renderTokens.
  induction tokens as [|token rest IH]; intros children; cbn [fold_left].
  - now rewrite app_nil_r.
  - rewrite IH, (IH (renderToken [] token)), renderToken_pushes.
    now rewrite app_assoc.
Qed.

(** X12.  The block renderer works token by token and only appends: the
    blocks of a token stream are the blocks of its first part followed by
    the blocks of the rest, so no token changes or reorders what the
    tokens before it gave. *)
Theorem renderTokens_app (tokens rest : list MarkedToken) :
  renderTokens (tokens ++ rest) = renderTokens tokens ++ renderTokens rest.
Proof.
  unfold renderTokens at 1. rewrite fold_left_app.
  fold (renderTokens tokens). apply renderTokens_from.
Qed.

(** The texts of the runs that have one, in order. *)
Definition runTexts (runs : list TextRun.t) : list jsstring :=
  flat_map (fun r => match TextRun.text r with
                     | Some t => [t]
                     | None => []
                     end) runs.

Lemma codeRuns_texts (codeLines : list jsstring) :
  runTexts (codeRuns codeLines) = codeLines.
Proof.
  induction codeLines as [|line rest IH]; [reflexivity|].
  cbn [codeRuns]. destruct rest as [|line' rest]; [reflexivity|].
  unfold runTexts in *. cbn [flat_map TextRun.text app].
  now rewrite IH.
Qed.

Lemma codeRuns_length (codeLines : list jsstring) :
  List.length (codeRuns codeLines) = (2 * List.length codeLines - 1)%nat.
Proof.
  induction codeLines as [|line rest IH]; [reflexivity|].
  cbn [codeRuns]. destruct rest as [|line' rest]; [reflexivity|].
  cbn [List.length] in *. rewrite IH. lia.
Qed.

(** X13.  A code token becomes one paragraph that keeps the code: the
    texts of its runs, joined by line feeds, are the text of the token, and
    between two lines there is one break run (a code of n lines has 2n-1
    runs).  The text is not parsed for markers. *)
Theorem renderToken_code (children : list Block) (text : jsstring) :
  exists p : Paragraph.t,
    renderToken children (Code text) = children ++ [BParagraph p]
    /\ join 10 (runTexts (Paragraph.children p)) = text
    /\ List.length (Paragraph.children p)
       = (2 * List.length (split 10 text) - 1)%nat
    /\ Forall (fun r => TextRun.break r = Some 1%Z
                        \/ (TextRun.font r = Some (js "Courier New")
                            /\ TextRun.size r = Some 24%Z
                            /\ TextRun.bold r = None
                            /\ TextRun.italics r = None))
         (Paragraph.children p).
Proof.
  eexists. split; [reflexivity|]. cbn [Paragraph.children].
  split; [| split].
  - rewrite codeRuns_texts. apply join_split.
  - apply codeRuns_length.
  - induction (split 10 text) as [|line rest IH]; [constructor|].
    cbn [codeRuns]. constructor; [right; now repeat split|].
    destruct rest; [constructor|].
    constructor; [left; reflexivity | exact IH].
Qed.

(** The texts and the bold flags of the runs of a table cell. *)
Definition cellTexts (cell : TableCell.t) : list (option jsstring) :=
  flat_map (fun p => map TextRun.text (Paragraph.children p))
    (TableCell.children cell).

Definition cellBolds (cell : TableCell.t) : list (option bool) :=
  flat_map (fun p => map TextRun.bold (Paragraph.children p))
    (TableCell.children cell).

(** X14.  A table keeps every cell text: the grid has the header row
    followed by one row for each data row, every cell holds exactly the
    text of its cell (not parsed for markers), and the header cells are
    bold while the data cells are not. *)
Theorem createTableFromMarkdown_cells (header : list jsstring)
  (rows : list (list jsstring)) :
  map (map cellTexts) (Table.rows (createTableFromMarkdown header rows))
  = map (map (fun cell => [Some cell])) (header :: rows)
  /\ map (map cellBolds) (Table.rows (createTableFromMarkdown header rows))
     = map (fun _ => [Some true]) header
       :: map (map (fun _ => [None])) rows.
Proof.
  unfold createTableFromMarkdown. cbn [Table.rows map].
  split; f_equal; rewrite !map_map;
    try (apply map_ext; intros; rewrite ?map_map; try apply map_ext;
         reflexivity).
Qed.

(** X15.  A blockquote keeps its paragraph tokens only, each as one
    paragraph whose single italic run is the text of the token as it
    stands (not parsed for markers); the other tokens inside it (lists,
    code, nested quotes) give no block. *)
Theorem renderToken_blockquote (children : list Block)
  (quotes : list MarkedToken) :
  renderToken children (Blockquote (Some quotes))
  = children
    ++ flat_map (fun quote =>
                   match quote with
                   | ParagraphTok text =>
                     [BParagraph (createBlockquoteParagraph text)]
                   | _ => []
                   end) quotes
  /\ map blockTexts (renderToken [] (Blockquote (Some quotes)))
     = flat_map (fun quote =>
                   match quote with
                   | ParagraphTok text => [[Some text]]
                   | _ => []
                   end) quotes.
Proof.
  cbn [renderToken]. rewrite !blockquote_pushes. split; [reflexivity|].
  cbn [app]. induction quotes as [|quote rest IH]; [reflexivity|].
  cbn [flat_map]. rewrite map_app, IH.
  now destruct quote.
Qed.

(* ===================================================================== *)
(** * More on the tool handlers *)
(* ===================================================================== *)

(** What [createWordDoc] and [saveWordDocument] do to the world, case by
    case. *)
Lemma createWordDoc_run (ext : Collaborators) (markdownContent : jsstring)
  (w : World ext) :
  createWordDoc ext markdownContent w
  = match marked_lexer ext (mkOptions true true)
            (preprocessMarkdown markdownContent) with
    | inl message =>
      (inl (Error message),
       mkWorld (fs w) (mkOptions true true)
         (trace w ++ [EMarkedUse (mkOptions true true);
                      ELexer (preprocessMarkdown markdownContent)]))
    | inr tokens =>
      (inr (Document.mk [renderTokens tokens]),
       mkWorld (fs w) (mkOptions true true)
         (trace w ++ [EMarkedUse (mkOptions true true);
                      ELexer (preprocessMarkdown markdownContent)]))
    end.
Proof.
  unfold createWordDoc, bind, marked_use, lexer, lift, logged, ret.
  cbn [markedOptions fs trace].
  destruct (marked_lexer ext (mkOptions true true)
              (preprocessMarkdown markdownContent));
    now rewrite <- app_assoc.
Qed.

Lemma saveWordDocument_run (ext : Collaborators) (doc : Document.t)
  (outputPath : jsstring) (w : World ext) :
  saveWordDocument ext doc outputPath w
  = match Packer_toBuffer ext doc with
    | inl message =>
      (inl (Error message),
       mkWorld (fs w) (markedOptions w) (trace w ++ [EToBuffer doc]))
    | inr buffer =>
      match fs_mkdir ext (path_dirname ext outputPath) (fs w) with
      | inl message =>
        (inl (Error message),
         mkWorld (fs w) (markedOptions w)
           (trace w ++ [EToBuffer doc;
                        EMkdir (path_dirname ext outputPath)]))
      | inr fs1 =>
        match fs_writeFile ext outputPath buffer fs1 with
        | inl message =>
          (inl (Error message),
           mkWorld fs1 (markedOptions w)
             (trace w ++ [EToBuffer doc;
                          EMkdir (path_dirname ext outputPath);
                          EWriteFile outputPath]))
        | inr fs2 =>
          (inr tt,
           mkWorld fs2 (markedOptions w)
             (trace w ++ [EToBuffer doc;
                          EMkdir (path_dirname ext outputPath);
                          EWriteFile outputPath]))
        end
      end
    end.
Proof.
  unfold saveWordDocument, bind, toBuffer, mkdir, writeFile, lift, logged.
  destruct (Packer_toBuffer ext doc) as [message | buffer];
    [reflexivity|].
  cbn [fs markedOptions trace].
  destruct (fs_mkdir ext (path_dirname ext outputPath) (fs w))
    as [message | fs1]; [now rewrite <- app_assoc|].
  cbn [fs markedOptions trace].
  destruct (fs_writeFile ext outputPath buffer fs1);
    now rewrite <- !app_assoc.
Qed.

(** The conversion that both handlers run inside their [try] block, once
    the text is there. *)
Definition convert (ext : Collaborators) (markdownContent outputPath : jsstring)
  : M ext unit :=
  bind ext (createWordDoc ext markdownContent)
    (fun doc => saveWordDocument ext doc outputPath).

(** How a conversion ends, case by case. *)
Lemma convert_eq (ext : Collaborators) (markdownContent outputPath : jsstring)
  (w : World ext) :
  convert ext markdownContent outputPath w
  = match marked_lexer ext (mkOptions true true)
            (preprocessMarkdown markdownContent) with
    | inl message =>
      (inl (Error message),
       mkWorld (fs w) (mkOptions true true)
         (trace w ++ [EMarkedUse (mkOptions true true);
                      ELexer (preprocessMarkdown markdownContent)]))
    | inr tokens =>
      match Packer_toBuffer ext (Document.mk [renderTokens tokens]) with
      | inl message =>
        (inl (Error message),
         mkWorld (fs w) (mkOptions true true)
           (trace w ++ [EMarkedUse (mkOptions true true);
                        ELexer (preprocessMarkdown markdownContent);
                        EToBuffer (Document.mk [renderTokens tokens])]))
      | inr buffer =>
        match fs_mkdir ext (path_dirname ext outputPath) (fs w) with
        | inl message =>
          (inl (Error message),
           mkWorld (fs w) (mkOptions true true)
             (trace w ++ [EMarkedUse (mkOptions true true);
                          ELexer (preprocessMarkdown markdownContent);
                          EToBuffer (Document.mk [renderTokens tokens]);
                          EMkdir (path_dirname ext outputPath)]))
        | inr fs1 =>
          match fs_writeFile ext outputPath buffer fs1 with
          | inl message =>
            (inl (Error message),
             mkWorld fs1 (mkOptions true true)
               (trace w ++ [EMarkedUse (mkOptions true true);
                            ELexer (preprocessMarkdown markdownContent);
                            EToBuffer (Document.mk [renderTokens tokens]);
                            EMkdir (path_dirname ext outputPath);
                            EWriteFile outputPath]))
          | inr fs2 =>
            (inr tt,
             mkWorld fs2 (mkOptions true true)
               (trace w ++ [EMarkedUse (mkOptions true true);
                            ELexer (preprocessMarkdown markdownContent);
                            EToBuffer (Document.mk [renderTokens tokens]);
                            EMkdir (path_dirname ext outputPath);
                            EWriteFile outputPath]))
          end
        end
      end
    end.
Proof.
  unfold convert, bind. rewrite createWordDoc_run.
  destruct (marked_lexer ext (mkOptions true true)
              (preprocessMarkdown markdownContent)) as [m | tokens];
    [reflexivity|].
  rewrite saveWordDocument_run. cbn [fs markedOptions trace].
  destruct (Packer_toBuffer ext (Document.mk [renderTokens tokens]))
    as [m | buffer]; [now rewrite <- app_assoc|].
  destruct (fs_mkdir ext (path_dirname ext outputPath) (fs w))
    as [m | fs1]; [now rewrite <- app_assoc|].
  destruct (fs_writeFile ext outputPath buffer fs1);
    now rewrite <- app_assoc.
Qed.

Lemma handleWriteMarkdownToWord_body (ext : Collaborators)
  (content outputPath : jsstring) (w : World ext) :
  truthy content = true -> truthy outputPath = true ->
  handleWriteMarkdownToWord ext
    (WriteMarkdownToWordArgs.mk (Some content) (Some outputPath)) w
  = match convert ext content outputPath w with
    | (inl error, w') =>
      (inl (McpError InternalError
              (js "创建文档失败: " ++ errorMessage error)), w')
    | (inr _, w') => (inr (js "成功创建Word文档: " ++ outputPath), w')
    end.
Proof.
  intros Hc Ho.
  unfold handleWriteMarkdownToWord, falsy. cbn [WriteMarkdownToWordArgs.content
    WriteMarkdownToWordArgs.outputPath valueOf]. rewrite Hc, Ho. cbn [negb orb].
  unfold tryCatch, convert, bind, ret, throw.
  destruct (createWordDoc ext content w) as [[error | doc] w1]; [reflexivity|].
  destruct (saveWordDocument ext doc outputPath w1) as [[error | u] w2];
    reflexivity.
Qed.

Lemma handleMarkdownToWord_body (ext : Collaborators)
  (markdownPath outputPath : jsstring) (w : World ext) :
  truthy markdownPath = true -> truthy outputPath = true ->
  handleMarkdownToWord ext
    (MarkdownToWordArgs.mk (Some markdownPath) (Some outputPath)) w
  = match fs_readFile ext markdownPath (fs w) with
    | inl message =>
      (inl (McpError InternalError (js "处理文件失败: " ++ message)),
       mkWorld (fs w) (markedOptions w)
         (trace w ++ [EReadFile markdownPath]))
    | inr content =>
      match convert ext content outputPath
              (mkWorld (fs w) (markedOptions w)
                 (trace w ++ [EReadFile markdownPath])) with
      | (inl error, w') =>
        (inl (McpError InternalError
                (js "处理文件失败: " ++ errorMessage error)), w')
      | (inr _, w') =>
        (inr (js "成功将Markdown文件转换为Word文档: " ++ outputPath), w')
      end
    end.
Proof.
  intros Hp Ho.
  unfold handleMarkdownToWord, falsy. cbn [MarkdownToWordArgs.markdownPath
    MarkdownToWordArgs.outputPath valueOf]. rewrite Hp, Ho. cbn [negb orb].
  unfold tryCatch, convert, bind, ret, throw, readFile, lift, logged.
  destruct (fs_readFile ext markdownPath (fs w)) as [message | content];
    [reflexivity|].
  destruct (createWordDoc ext content _) as [[error | doc] w1]; [reflexivity|].
  destruct (saveWordDocument ext doc outputPath w1) as [[error | u] w2];
    reflexivity.
Qed.

(** X16.  The outcome of the content tool, once both arguments are
    there, is decided by the first collaborator that fails, in the order
    tokenizer, serializer, [mkdir], [writeFile].  When one fails, the tool
    throws [InternalError] whose message is the prefix of the tool followed
    by the message of that collaborator, and the collaborators after it are
    not called (the trace ends with the call that failed); while it is the
    tokenizer or the serializer that fails, the file system is untouched.
    When none fails, the tool returns its success message, after
    [writeFile] has been given the serialized rendering of the normalized
    text.  The tool never reads a file. *)
Theorem handleWriteMarkdownToWord_outcomes (ext : Collaborators)
  (content outputPath : jsstring) (w : World ext) :
  truthy content = true -> truthy outputPath = true ->
  (forall message,
     marked_lexer ext (mkOptions true true) (preprocessMarkdown content)
     = inl message ->
     handleWriteMarkdownToWord ext
       (WriteMarkdownToWordArgs.mk (Some content) (Some outputPath)) w
     = (inl (McpError InternalError (js "创建文档失败: " ++ message)),
        mkWorld (fs w) (mkOptions true true)
          (trace w ++ [EMarkedUse (mkOptions true true);
                       ELexer (preprocessMarkdown content)])))
  /\ (forall tokens,
        marked_lexer ext (mkOptions true true) (preprocessMarkdown content)
        = inr tokens ->
        (forall message,
           Packer_toBuffer ext (Document.mk [renderTokens tokens])
           = inl message ->
           handleWriteMarkdownToWord ext
             (WriteMarkdownToWordArgs.mk (Some content) (Some outputPath)) w
           = (inl (McpError InternalError (js "创建文档失败: " ++ message)),
              mkWorld (fs w) (mkOptions true true)
                (trace w ++ [EMarkedUse (mkOptions true true);
                             ELexer (preprocessMarkdown content);
                             EToBuffer (Document.mk [renderTokens tokens])])))
        /\ (forall buffer,
              Packer_toBuffer ext (Document.mk [renderTokens tokens])
              = inr buffer ->
              (forall message,
                 fs_mkdir ext (path_dirname ext outputPath) (fs w)
                 = inl message ->
                 fst (handleWriteMarkdownToWord ext
                        (WriteMarkdownToWordArgs.mk (Some content)
                           (Some outputPath)) w)
                 = inl (McpError InternalError
                          (js "创建文档失败: " ++ message))
                 /\ trace
                      (snd (handleWriteMarkdownToWord ext
                              (WriteMarkdownToWordArgs.mk (Some content)
                                 (Some outputPath)) w))
                    = trace w
                      ++ [EMarkedUse (mkOptions true true);
                          ELexer (preprocessMarkdown content);
                          EToBuffer (Document.mk [renderTokens tokens]);
                          EMkdir (path_dirname ext outputPath)])
              /\ (forall fs1,
                    fs_mkdir ext (path_dirname ext outputPath) (fs w)
                    = inr fs1 ->
                    (forall message,
                       fs_writeFile ext outputPath buffer fs1 = inl message ->
                       fst (handleWriteMarkdownToWord ext
                              (WriteMarkdownToWordArgs.mk (Some content)
                                 (Some outputPath)) w)
                       = inl (McpError InternalError
                                (js "创建文档失败: " ++ message))
                       /\ trace
                            (snd (handleWriteMarkdownToWord ext
                                    (WriteMarkdownToWordArgs.mk (Some content)
                                       (Some outputPath)) w))
                          = trace w
                            ++ [EMarkedUse (mkOptions true true);
                                ELexer (preprocessMarkdown content);
                                EToBuffer
                                  (Document.mk [renderTokens tokens]);
                                EMkdir (path_dirname ext outputPath);
                                EWriteFile outputPath])
                    /\ (forall fs2,
                          fs_writeFile ext outputPath buffer fs1 = inr fs2 ->
                          handleWriteMarkdownToWord ext
                            (WriteMarkdownToWordArgs.mk (Some content)
                               (Some outputPath)) w
                          = (inr (js "成功创建Word文档: " ++ outputPath),
                             mkWorld fs2 (mkOptions true true)
                               (trace w
                                ++ [EMarkedUse (mkOptions true true);
                                    ELexer (preprocessMarkdown content);
                                    EToBuffer
                                      (Document.mk [renderTokens tokens]);
                                    EMkdir (path_dirname ext outputPath);
                                    EWriteFile outputPath])))))).
Proof.
  intros Hc Ho. rewrite (handleWriteMarkdownToWord_body ext _ _ w Hc Ho).
  rewrite convert_eq.
  split; [intros message -> ; reflexivity|].
  intros tokens ->.
  split; [intros message -> ; reflexivity|].
  intros buffer ->.
  split; [intros message -> ; split; reflexivity|].
  intros fs1 ->.
  split; [intros message -> ; split; reflexivity|].
  intros fs2 ->. reflexivity.
Qed.

Lemma handleWriteMarkdownToWord_outcomes_witness :
  handleWriteMarkdownToWord sample
    (WriteMarkdownToWordArgs.mk (Some (js "# Title\n\nHello **world**.\n"))
       (Some (js "out.docx")))
    (sampleWorld [])
  = (inr (js "成功创建Word文档: " ++ js "out.docx"),
     @mkWorld sample
       [(js "out.docx",
         inr (Document.mk
                [renderTokens
                   [Heading 1 (js "Title");
                    ParagraphTok (js "Hello **world**.")]]))]
       (mkOptions true true)
       (trace (sampleWorld [])
        ++ [EMarkedUse (mkOptions true true);
            ELexer (preprocessMarkdown (js "# Title\n\nHello **world**.\n"));
            EToBuffer
              (Document.mk
                 [renderTokens
                    [Heading 1 (js "Title");
                     ParagraphTok (js "Hello **world**.")]]);
            EMkdir (path_dirname sample (js "out.docx"));
            EWriteFile (js "out.docx")])).
Proof.
  refine (proj2 (proj2 (proj2 (proj2
            (handleWriteMarkdownToWord_outcomes sample
               (js "# Title\n\nHello **world**.\n") (js "out.docx")
               (sampleWorld []) eq_refl eq_refl)
            [Heading 1 (js "Title"); ParagraphTok (js "Hello **world**.")]
            eq_refl)
            (Document.mk
               [renderTokens
                  [Heading 1 (js "Title");
                   ParagraphTok (js "Hello **world**.")]])
            eq_refl)
            [] eq_refl)
            _ eq_refl).
Defined.

(** X17.  The outcome of the file tool, once both arguments are there, is
    decided by the first collaborator that fails, in the order read,
    tokenizer, serializer, [mkdir], [writeFile].  When one fails, the tool
    throws [InternalError] whose message is the prefix of the tool followed
    by the message of that collaborator, and the collaborators after it are
    not called (the trace ends with the call that failed); while it is the
    read, the tokenizer or the serializer that fails, the file system is
    untouched.  When none fails, the tool returns its success message,
    after [writeFile] has been given the serialized rendering of the
    normalized content of the source file. *)
Theorem handleMarkdownToWord_outcomes (ext : Collaborators)
  (markdownPath outputPath : jsstring) (w : World ext) :
  truthy markdownPath = true -> truthy outputPath = true ->
  (forall message,
     fs_readFile ext markdownPath (fs w) = inl message ->
     handleMarkdownToWord ext
       (MarkdownToWordArgs.mk (Some markdownPath) (Some outputPath)) w
     = (inl (McpError InternalError (js "处理文件失败: " ++ message)),
        mkWorld (fs w) (markedOptions w)
          (trace w ++ [EReadFile markdownPath])))
  /\ (forall content,
        fs_readFile ext markdownPath (fs w) = inr content ->
        (forall message,
           marked_lexer ext (mkOptions true true) (preprocessMarkdown content)
           = inl message ->
           handleMarkdownToWord ext
             (MarkdownToWordArgs.mk (Some markdownPath) (Some outputPath)) w
           = (inl (McpError InternalError (js "处理文件失败: " ++ message)),
              mkWorld (fs w) (mkOptions true true)
                (trace w ++ [EReadFile markdownPath;
                             EMarkedUse (mkOptions true true);
                             ELexer (preprocessMarkdown content)])))
        /\ (forall tokens,
              marked_lexer ext (mkOptions true true)
                (preprocessMarkdown content) = inr tokens ->
              (forall message,
                 Packer_toBuffer ext (Document.mk [renderTokens tokens])
                 = inl message ->
                 handleMarkdownToWord ext
                   (MarkdownToWordArgs.mk (Some markdownPath)
                      (Some outputPath)) w
                 = (inl (McpError InternalError
                           (js "处理文件失败: " ++ message)),
                    mkWorld (fs w) (mkOptions true true)
                      (trace w
                       ++ [EReadFile markdownPath;
                           EMarkedUse (mkOptions true true);
                           ELexer (preprocessMarkdown content);
                           EToBuffer (Document.mk [renderTokens tokens])])))
              /\ (forall buffer,
                    Packer_toBuffer ext (Document.mk [renderTokens tokens])
                    = inr buffer ->
                    (forall message,
                       fs_mkdir ext (path_dirname ext outputPath) (fs w)
                       = inl message ->
                       fst (handleMarkdownToWord ext
                              (MarkdownToWordArgs.mk (Some markdownPath)
                                 (Some outputPath)) w)
                       = inl (McpError InternalError
                                (js "处理文件失败: " ++ message))
                       /\ trace
                            (snd (handleMarkdownToWord ext
                                    (MarkdownToWordArgs.mk (Some markdownPath)
                                       (Some outputPath)) w))
                          = trace w
                            ++ [EReadFile markdownPath;
                                EMarkedUse (mkOptions true true);
                                ELexer (preprocessMarkdown content);
                                EToBuffer
                                  (Document.mk [renderTokens tokens]);
                                EMkdir (path_dirname ext outputPath)])
                    /\ (forall fs1,
                          fs_mkdir ext (path_dirname ext outputPath) (fs w)
                          = inr fs1 ->
                          (forall message,
                             fs_writeFile ext outputPath buffer fs1
                             = inl message ->
                             fst (handleMarkdownToWord ext
                                    (MarkdownToWordArgs.mk (Some markdownPath)
                                       (Some outputPath)) w)
                             = inl (McpError InternalError
                                      (js "处理文件失败: " ++ message))
                             /\ trace
                                  (snd (handleMarkdownToWord ext
                                          (MarkdownToWordArgs.mk
                                             (Some markdownPath)
                                             (Some outputPath)) w))
                                = trace w
                                  ++ [EReadFile markdownPath;
                                      EMarkedUse (mkOptions true true);
                                      ELexer (preprocessMarkdown content);
                                      EToBuffer
                                        (Document.mk [renderTokens tokens]);
                                      EMkdir (path_dirname ext outputPath);
                                      EWriteFile outputPath])
                          /\ (forall fs2,
                                fs_writeFile ext outputPath buffer fs1
                                = inr fs2 ->
                                handleMarkdownToWord ext
                                  (MarkdownToWordArgs.mk (Some markdownPath)
                                     (Some outputPath)) w
                                = (inr (js "成功将Markdown文件转换为Word文档: "
                                          ++ outputPath),
                                   mkWorld fs2 (mkOptions true true)
                                     (trace w
                                      ++ [EReadFile markdownPath;
                                          EMarkedUse (mkOptions true true);
                                          ELexer (preprocessMarkdown content);
                                          EToBuffer
                                            (Document.mk
                                               [renderTokens tokens]);
                                          EMkdir
                                            (path_dirname ext outputPath);
                                          EWriteFile outputPath]))))))).
Proof.
  intros Hp Ho. rewrite (handleMarkdownToWord_body ext _ _ w Hp Ho).
  split; [intros message -> ; reflexivity|].
  intros content ->. rewrite convert_eq. cbn [fs markedOptions trace].
  split; [intros message -> ; cbv beta iota; now rewrite <- app_assoc|].
  intros tokens ->.
  split; [intros message -> ; cbv beta iota; now rewrite <- app_assoc|].
  intros buffer ->.
  split;
    [intros message -> ; cbv beta iota; cbn [fst snd trace];
     now rewrite <- app_assoc|].
  intros fs1 ->.
  split;
    [intros message -> ; cbv beta iota; cbn [fst snd trace];
     now rewrite <- app_assoc|].
  intros fs2 ->. cbv beta iota. now rewrite <- app_assoc.
Qed.

Lemma handleMarkdownToWord_outcomes_witness :
  handleMarkdownToWord sample
    (MarkdownToWordArgs.mk (Some (js "a.md")) (Some (js "out.docx")))
    (sampleWorld [(js "a.md", inl (js "# Title\n\nHello **world**.\n"))])
  = (inr (js "成功将Markdown文件转换为Word文档: " ++ js "out.docx"),
     @mkWorld sample
       [(js "out.docx",
         inr (Document.mk
                [renderTokens
                   [Heading 1 (js "Title");
                    ParagraphTok (js "Hello **world**.")]]));
        (js "a.md", inl (js "# Title\n\nHello **world**.\n"))]
       (mkOptions true true)
       (trace
          (sampleWorld
             [(js "a.md", inl (js "# Title\n\nHello **world**.\n"))])
        ++ [EReadFile (js "a.md");
            EMarkedUse (mkOptions true true);
            ELexer (preprocessMarkdown (js "# Title\n\nHello **world**.\n"));
            EToBuffer
              (Document.mk
                 [renderTokens
                    [Heading 1 (js "Title");
                     ParagraphTok (js "Hello **world**.")]]);
            EMkdir (path_dirname sample (js "out.docx"));
            EWriteFile (js "out.docx")])).
Proof.
  refine (proj2 (proj2 (proj2 (proj2 (proj2
            (handleMarkdownToWord_outcomes sample (js "a.md") (js "out.docx")
               (sampleWorld
                  [(js "a.md", inl (js "# Title\n\nHello **world**.\n"))])
               eq_refl eq_refl)
            (js "# Title\n\nHello **world**.\n") eq_refl)
            [Heading 1 (js "Title"); ParagraphTok (js "Hello **world**.")]
            eq_refl)
            (Document.mk
               [renderTokens
                  [Heading 1 (js "Title");
                   ParagraphTok (js "Hello **world**.")]])
            eq_refl)
            [(js "a.md", inl (js "# Title\n\nHello **world**.\n"))]
            eq_refl)
            _ eq_refl).
Defined.

(** X18.  When the source file cannot be read, the file tool throws
    [InternalError] with the message of the read error after its prefix,
    and stops there: the read is the only collaborator call it made, and
    the file system and the options of [marked] are untouched. *)
Theorem handleMarkdownToWord_read_failure (ext : Collaborators)
  (markdownPath outputPath message : jsstring) (w : World ext) :
  truthy markdownPath = true -> truthy outputPath = true ->
  fs_readFile ext markdownPath (fs w) = inl message ->
  handleMarkdownToWord ext
    (MarkdownToWordArgs.mk (Some markdownPath) (Some outputPath)) w
  = (inl (McpError InternalError (js "处理文件失败: " ++ message)),
     mkWorld (fs w) (markedOptions w) (trace w ++ [EReadFile markdownPath])).
Proof.
  intros Hp Ho Hread.
  rewrite (handleMarkdownToWord_body ext _ _ w Hp Ho), Hread. reflexivity.
Qed.

Lemma handleMarkdownToWord_read_failure_witness :
  handleMarkdownToWord sample
    (MarkdownToWordArgs.mk (Some (js "missing.md")) (Some (js "out.docx")))
    (sampleWorld [])
  = (inl (McpError InternalError
            (js "处理文件失败: " ++ js "ENOENT: no such file or directory")),
     mkWorld (fs (sampleWorld [])) (markedOptions (sampleWorld []))
       (trace (sampleWorld []) ++ [EReadFile (js "missing.md")])).
Proof.
  apply (handleMarkdownToWord_read_failure sample (js "missing.md")
           (js "out.docx") (js "ENOENT: no such file or directory")
           (sampleWorld [])); reflexivity.
Defined.

Lemma handleMarkdownToWord_error_kind (ext : Collaborators)
  (args : MarkdownToWordArgs.t) (w w' : World ext) (error : Exn) :
  handleMarkdownToWord ext args w = (inl error, w') ->
  exists message,
    error = McpError InvalidParams message
    \/ error = McpError InternalError message.
Proof.
  intros H. unfold handleMarkdownToWord in H.
  destruct (falsy (MarkdownToWordArgs.markdownPath args)
            || falsy (MarkdownToWordArgs.outputPath args)).
  - injection H as <- _. eexists. left. reflexivity.
  - unfold tryCatch in H.
    match type of H with
    | context [match ?body w with _ => _ end] =>
        destruct (body w) as [[e | a] w1]
    end; [| discriminate].
    injection H as <- _. eexists. right. reflexivity.
Qed.

Lemma handleWriteMarkdownToWord_error_kind (ext : Collaborators)
  (args : WriteMarkdownToWordArgs.t) (w w' : World ext) (error : Exn) :
  handleWriteMarkdownToWord ext args w = (inl error, w') ->
  exists message,
    error = McpError InvalidParams message
    \/ error = McpError InternalError message.
Proof.
  intros H. unfold handleWriteMarkdownToWord in H.
  destruct (falsy (WriteMarkdownToWordArgs.content args)
            || falsy (WriteMarkdownToWordArgs.outputPath args)).
  - injection H as <- _. eexists. left. reflexivity.
  - unfold tryCatch in H.
    match type of H with
    | context [match ?body w with _ => _ end] =>
        destruct (body w) as [[e | a] w1]
    end; [| discriminate].
    injection H as <- _. eexists. right. reflexivity.
Qed.

(** X19.  What a handler throws, as the request handler calls it.  Called
    on an arguments object, whatever its properties and whatever the
    collaborators do, a handler throws nothing but an [McpError]:
    [InvalidParams] with the fixed message, the world unchanged, when one of
    its two arguments is missing or empty, and otherwise [InternalError]
    with the prefix of the tool; no error of a collaborator leaves the
    handler as it is.  Called without an arguments object, the handler
    throws the [TypeError] of its first property read, which is not an
    [McpError], and the world is unchanged. *)
Theorem handlers_thrown_errors (ext : Collaborators)
  (typeErrorMessage : jsstring -> jsstring) (w : World ext) :
  (forall (args : MarkdownToWordArgs.t) (error : Exn) (w' : World ext),
     handleMarkdownToWordCall ext typeErrorMessage (Some args) w
     = (inl error, w') ->
     (falsy (MarkdownToWordArgs.markdownPath args)
      || falsy (MarkdownToWordArgs.outputPath args) = true
      /\ error = McpError InvalidParams (js "缺少必要的参数") /\ w' = w)
     \/ (falsy (MarkdownToWordArgs.markdownPath args)
         || falsy (MarkdownToWordArgs.outputPath args) = false
         /\ exists message,
              error = McpError InternalError (js "处理文件失败: " ++ message)))
  /\ (forall (args : WriteMarkdownToWordArgs.t) (error : Exn)
             (w' : World ext),
        handleWriteMarkdownToWordCall ext typeErrorMessage (Some args) w
        = (inl error, w') ->
        (falsy (WriteMarkdownToWordArgs.content args)
         || falsy (WriteMarkdownToWordArgs.outputPath args) = true
         /\ error = McpError InvalidParams (js "缺少必要的参数") /\ w' = w)
        \/ (falsy (WriteMarkdownToWordArgs.content args)
            || falsy (WriteMarkdownToWordArgs.outputPath args) = false
            /\ exists message,
                 error
                 = McpError InternalError (js "创建文档失败: " ++ message)))
  /\ handleMarkdownToWordCall ext typeErrorMessage None w
     = (inl (Error (typeErrorMessage (js "markdownPath"))), w)
  /\ handleWriteMarkdownToWordCall ext typeErrorMessage None w
     = (inl (Error (typeErrorMessage (js "content"))), w).
Proof.
  split; [| split; [| split; reflexivity]]; intros args error w' H;
    cbn [handleMarkdownToWordCall handleWriteMarkdownToWordCall] in H.
  - unfold handleMarkdownToWord in H.
    destruct (falsy (MarkdownToWordArgs.markdownPath args)
              || falsy (MarkdownToWordArgs.outputPath args)).
    + injection H as <- <-. left. split; [|split]; reflexivity.
    + unfold tryCatch in H.
      match type of H with
      | context [match ?body w with _ => _ end] =>
          destruct (body w) as [[e | a] w1]
      end; [| discriminate].
      injection H as <- _. right. split; [reflexivity|].
      eexists. reflexivity.
  - unfold handleWriteMarkdownToWord in H.
    destruct (falsy (WriteMarkdownToWordArgs.content args)
              || falsy (WriteMarkdownToWordArgs.outputPath args)).
    + injection H as <- <-. left. split; [|split]; reflexivity.
    + unfold tryCatch in H.
      match type of H with
      | context [match ?body w with _ => _ end] =>
          destruct (body w) as [[e | a] w1]
      end; [| discriminate].
      injection H as <- _. right. split; [reflexivity|].
      eexists. reflexivity.
Qed.

Lemma handlers_thrown_errors_witness :
  (falsy (Some (js "missing.md")) || falsy (Some (js "out.docx")) = true
   /\ McpError InternalError
        (js "处理文件失败: " ++ js "ENOENT: no such file or directory")
      = McpError InvalidParams (js "缺少必要的参数")
   /\ mkWorld (fs (sampleWorld [])) (markedOptions (sampleWorld []))
        (trace (sampleWorld []) ++ [EReadFile (js "missing.md")])
      = sampleWorld [])
  \/ (falsy (Some (js "missing.md")) || falsy (Some (js "out.docx")) = false
      /\ exists message,
           McpError InternalError
             (js "处理文件失败: " ++ js "ENOENT: no such file or directory")
           = McpError InternalError (js "处理文件失败: " ++ message)).
Proof.
  apply (proj1 (handlers_thrown_errors sample (fun _ => []) (sampleWorld []))
           (MarkdownToWordArgs.mk (Some (js "missing.md"))
              (Some (js "out.docx")))
           _ (mkWorld (fs (sampleWorld [])) (markedOptions (sampleWorld []))
                (trace (sampleWorld []) ++ [EReadFile (js "missing.md")]))).
  reflexivity.
Defined.

(* ===================================================================== *)
(** * The request handler *)
(* ===================================================================== *)

Lemma eqb_refl (s : jsstring) : JS.eqb s s = true.
Proof.
  induction s as [|c s IH]; [reflexivity|]. cbn. now rewrite N.eqb_refl.
Qed.

(** X20.  A request for a tool that is neither of the two fails with
    [MethodNotFound] and a message that names the tool; no handler runs and
    the world is unchanged, whatever the arguments are. *)
Theorem callTool_unknown_tool (ext : Collaborators)
  (typeErrorMessage : jsstring -> jsstring) (name : jsstring)
  (arguments : option ToolArguments.t) (w : World ext) :
  JS.eqb name (js "markdown_to_word") = false ->
  JS.eqb name (js "write_markdown_to_word") = false ->
  callTool ext typeErrorMessage name arguments w
  = (inl (McpError MethodNotFound (js "未知工具: " ++ name)), w).
Proof.
  intros H1 H2. unfold callTool, tryCatch. rewrite H1, H2. reflexivity.
Qed.

Lemma callTool_unknown_tool_witness :
  callTool sample (fun _ => []) (js "markdown_to_pdf")
    (Some (ToolArguments.mk (Some (js "a.md")) None (Some (js "a.pdf"))))
    (sampleWorld [])
  = (inl (McpError MethodNotFound (js "未知工具: " ++ js "markdown_to_pdf")),
     sampleWorld []).
Proof.
  apply callTool_unknown_tool; reflexivity.
Defined.

(** X21.  For the two tools, with an arguments object, the request handler
    adds nothing to the handler of the tool: the result, the error and the
    world are the ones of the handler, since a handler throws [McpError]
    only and the request handler throws those again as they are. *)
Theorem callTool_is_the_handler (ext : Collaborators)
  (typeErrorMessage : jsstring -> jsstring) (args : ToolArguments.t)
  (w : World ext) :
  callTool ext typeErrorMessage (js "markdown_to_word") (Some args) w
  = handleMarkdownToWord ext
      (MarkdownToWordArgs.mk (ToolArguments.markdownPath args)
         (ToolArguments.outputPath args)) w
  /\ callTool ext typeErrorMessage (js "write_markdown_to_word")
       (Some args) w
     = handleWriteMarkdownToWord ext
         (WriteMarkdownToWordArgs.mk (ToolArguments.content args)
            (ToolArguments.outputPath args)) w.
Proof.
  split; unfold callTool, tryCatch.
  - rewrite eqb_refl.
    destruct (handleMarkdownToWord ext _ w) as [[error | text] w'] eqn:H;
      [| reflexivity].
    now destruct (handleMarkdownToWord_error_kind ext _ w w' error H)
      as [message [-> | ->]].
  - change (JS.eqb (js "write_markdown_to_word") (js "markdown_to_word"))
      with false.
    rewrite eqb_refl.
    destruct (handleWriteMarkdownToWord ext _ w) as [[error | text] w'] eqn:H;
      [| reflexivity].
    now destruct (handleWriteMarkdownToWord_error_kind ext _ w w' error H)
      as [message [-> | ->]].
Qed.

(** X22.  A request for one of the two tools that carries no arguments
    object does not fail with [InvalidParams]: the handler fails on its
    first property read, and the request handler wraps that error as
    [InternalError].  No collaborator is called and the world is
    unchanged. *)
Theorem callTool_without_arguments (ext : Collaborators)
  (typeErrorMessage : jsstring -> jsstring) (w : World ext) :
  callTool ext typeErrorMessage (js "markdown_to_word") None w
  = (inl (McpError InternalError
            (js "处理文档时发生错误: "
             ++ typeErrorMessage (js "markdownPath"))), w)
  /\ callTool ext typeErrorMessage (js "write_markdown_to_word") None w
     = (inl (McpError InternalError
               (js "处理文档时发生错误: "
                ++ typeErrorMessage (js "content"))), w).
Proof.
  split; unfold callTool, tryCatch.
  - rewrite eqb_refl. reflexivity.
  - change (JS.eqb (js "write_markdown_to_word") (js "markdown_to_word"))
      with false.
    rewrite eqb_refl. reflexivity.
Qed.

(** X23.  Whatever the request and whatever the collaborators do, the
    request handler throws nothing but an [McpError], of kind
    [MethodNotFound], [InvalidParams] or [InternalError]. *)
Theorem callTool_throws_McpError_only (ext : Collaborators)
  (typeErrorMessage : jsstring -> jsstring) (name : jsstring)
  (arguments : option ToolArguments.t) (w w' : World ext) (error : Exn) :
  callTool ext typeErrorMessage name arguments w = (inl error, w') ->
  exists code message, error = McpError code message.
Proof.
  unfold callTool, tryCatch. intros H.
  match type of H with
  | context [match ?body w with _ => _ end] =>
      destruct (body w) as [[e | a] w1]
  end; [| discriminate].
  destruct e as [code message | message]; injection H as <- _;
    now do 2 eexists.
Qed.

Lemma callTool_throws_McpError_only_witness :
  exists code message,
    McpError InternalError
      (js "处理文件失败: " ++ js "ENOENT: no such file or directory")
    = McpError code message.
Proof.
  apply (callTool_throws_McpError_only sample (fun _ => [])
           (js "markdown_to_word")
           (Some (ToolArguments.mk (Some (js "missing.md")) None
                    (Some (js "out.docx"))))
           (sampleWorld [])
           (mkWorld (fs (sampleWorld [])) (markedOptions (sampleWorld []))
              (trace (sampleWorld []) ++ [EReadFile (js "missing.md")]))).
  reflexivity.
Defined.

(* ===================================================================== *)
(** * Across the components *)
(* ===================================================================== *)

(** X24.  A text that was already normalized converts as the text itself:
    [createWordDoc] returns the same document, or the same error, and
    leaves the same world. *)
Theorem createWordDoc_of_normalized (ext : Collaborators)
  (markdownContent : jsstring) (w : World ext) :
  createWordDoc ext (preprocessMarkdown markdownContent) w
  = createWordDoc ext markdownContent w.
Proof.
  rewrite !createWordDoc_run, preprocessMarkdown_twice. reflexivity.
Qed.

(** X25.  A heading whose depth is not one of 1 to 6 has no entry in the
    heading map: it is rendered as one paragraph (no spacer) at heading
    level 1, in the body style, with no spacing. *)
Theorem renderToken_heading_out_of_range (children : list Block)
  (depth : Z) (text : jsstring) :
  (depth < 1 \/ 6 < depth)%Z ->
  renderToken children (Heading depth text)
  = children
    ++ [BParagraph
          (Paragraph.mk
             [TextRun.mk (Some text) (Some (Style.font STYLES.normal))
                (Some (Style.size STYLES.normal)) (Some (js "000000"))
                None None None None]
             (Some HEADING_1)
             (Some (Spacing.mk (Some (Num 0)) (Some (Num 0)) None None))
             None None None)].
Proof.
  intros Hdepth. unfold renderToken, getHeadingStyle, headingOf, headingMap.
  cbn [find fst snd].
  repeat match goal with
         | |- context [(?a =? depth)%Z] =>
             destruct (Z.eqb_spec a depth); [lia|]
         | |- context [(depth =? ?a)%Z] =>
             destruct (Z.eqb_spec depth a); [lia|]
         end.
  reflexivity.
Qed.

Lemma renderToken_heading_out_of_range_witness :
  renderToken [] (Heading 7 (js "deep"))
  = []
    ++ [BParagraph
          (Paragraph.mk
             [TextRun.mk (Some (js "deep")) (Some (Style.font STYLES.normal))
                (Some (Style.size STYLES.normal)) (Some (js "000000"))
                None None None None]
             (Some HEADING_1)
             (Some (Spacing.mk (Some (Num 0)) (Some (Num 0)) None None))
             None None None)].
Proof.
  apply renderToken_heading_out_of_range. right. reflexivity.
Defined.
